(** * EnvCanViz: loader, processor, summarizer and visualizer

    A shallow embedding of the [envcanviz] package (loader.py, processor.py,
    summary.py, visualizer.py, utils.py) and the properties of it that the
    specification states.

    The package is a thin layer over pandas, numpy and matplotlib.  The
    functions of the package are embedded as they are written; the library
    calls they make are either modelled directly where their behaviour is
    fixed (row selection by a boolean mask, [dropna], [head], NaT
    comparisons, the reductions mean/sum/min/max/median) or gathered in the
    interface [Pandas] where the behaviour depends on parsing text
    (numbers, timestamps, frequency strings) or on formatting.

    Numbers are exact rationals: the floating point of the program is
    idealised.  Timestamps are integers (nanoseconds since the epoch, as in
    datetime64[ns]).  Strings are byte strings; case folding and white
    space follow Python on the ASCII range. *)

From Stdlib Require Import List String Ascii Bool ZArith QArith Qminmax Lia.
From Stdlib Require Import Reals Qreals Lra DecimalString.
Import ListNotations.

Local Open Scope string_scope.
Local Open Scope Z_scope.

(** ** Python string methods used by the package *)

Module Text.

Definition is_upper (a : ascii) : bool :=
  let n := nat_of_ascii a in (65 <=? n)%nat && (n <=? 90)%nat.

Definition lower_char (a : ascii) : ascii :=
  if is_upper a then ascii_of_nat (nat_of_ascii a + 32) else a.

(** [str.lower()] *)
Fixpoint lower (s : string) : string :=
  match s with
  | EmptyString => EmptyString
  | String a s' => String (lower_char a) (lower s')
  end.

(** [str.isspace()] on one character: tab, line feed, vertical tab, form
    feed, carriage return, the four separators 0x1c-0x1f and space. *)
Definition is_space (a : ascii) : bool :=
  let n := nat_of_ascii a in
  ((9 <=? n)%nat && (n <=? 13)%nat) || ((28 <=? n)%nat && (n <=? 32)%nat).

Fixpoint lstrip (s : string) : string :=
  match s with
  | EmptyString => EmptyString
  | String a s' => if is_space a then lstrip s' else s
  end.

Fixpoint rstrip (s : string) : string :=
  match s with
  | EmptyString => EmptyString
  | String a s' =>
      match rstrip s' with
      | EmptyString => if is_space a then EmptyString else String a EmptyString
      | r => String a r
      end
  end.

(** [str.strip()] *)
Definition strip (s : string) : string := rstrip (lstrip s).

(** [k in s] for strings *)
Fixpoint contains (k s : string) : bool :=
  match s with
  | EmptyString => prefix k EmptyString
  | String _ s' => prefix k s || contains k s'
  end.

Definition is_alnum (a : ascii) : bool :=
  let n := nat_of_ascii a in
  ((48 <=? n)%nat && (n <=? 57)%nat)
  || ((65 <=? n)%nat && (n <=? 90)%nat)
  || ((97 <=? n)%nat && (n <=? 122)%nat).

(** Truth value of a Python string: the empty string is falsy. *)
Definition truthy (s : string) : bool :=
  match s with EmptyString => false | _ => true end.

End Text.

(** ** Tables *)

(** A cell of a table: text as read from the file, a number, a timestamp,
    or the missing marker (NaN for numbers, NaT for timestamps). *)
Inductive cell : Type :=
| CStr (s : string)
| CNum (q : Q)
| CTime (t : Z)
| CMissing.

Definition notna (c : cell) : bool :=
  match c with CMissing => false | _ => true end.

Definition is_time (c : cell) : bool :=
  match c with CTime _ => true | _ => false end.

(** A frame is the ordered list of its columns, each a name with the cells
    of the column from the first row to the last.  [read_csv] gives the
    columns distinct names and the same number of cells. *)
Definition column : Type := (string * list cell)%type.
Definition frame : Type := list column.

Definition columns (df : frame) : list string := map fst df.

Definition col_in (c : string) (df : frame) : bool :=
  existsb (String.eqb c) (columns df).

(** [df[c]]: the cells of the column named [c]. *)
Fixpoint get_col (c : string) (df : frame) : option (list cell) :=
  match df with
  | [] => None
  | (n, v) :: df' => if String.eqb c n then Some v else get_col c df'
  end.

(** The cells of the column named [c], for a name that the frame has. *)
Definition series_of (df : frame) (c : string) : list cell :=
  match get_col c df with Some v => v | None => [] end.

(** [df[c] = f(df[c])] *)
Definition update_col (c : string) (f : list cell -> list cell) (df : frame) : frame :=
  map (fun nv : column => if String.eqb c (fst nv) then (fst nv, f (snd nv)) else nv) df.

(** Selection of the positions where a boolean mask holds. *)
Fixpoint select {A : Type} (mask : list bool) (l : list A) : list A :=
  match mask, l with
  | b :: mask', x :: l' => if b then x :: select mask' l' else select mask' l'
  | _, _ => []
  end.

(** [df[mask]]: the rows where the mask holds, in every column. *)
Definition take_rows (mask : list bool) (df : frame) : frame :=
  map (fun nv : column => (fst nv, select mask (snd nv))) df.

(** ** Outcomes *)

Inductive exn : Type :=
| SystemExit (msg : string)
| KeyError (key : string)
| ValueError
| TypeError.

Inductive result (A : Type) : Type :=
| Ok (a : A)
| Raise (e : exn).
Arguments Ok {A} a.
Arguments Raise {A} e.

Definition bind {A B : Type} (r : result A) (k : A -> result B) : result B :=
  match r with Ok a => k a | Raise e => Raise e end.

Notation "x <- r ;; k" := (bind r (fun x => k))
  (at level 61, r at next level, right associativity).

Fixpoint mapM {A B : Type} (f : A -> result B) (l : list A) : result (list B) :=
  match l with
  | [] => Ok []
  | x :: l' => y <- f x ;; ys <- mapM f l' ;; Ok (y :: ys)
  end.

(** A [for] loop whose body may raise: the state is threaded through the
    elements in order and the first exception ends the loop. *)
Fixpoint for_each {S A : Type} (body : S -> A -> result S) (l : list A) (s : S)
    : result S :=
  match l with
  | [] => Ok s
  | x :: l' => s' <- body s x ;; for_each body l' s'
  end.

(** [df[c]] as an expression of the program: a KeyError when the frame has
    no such column. *)
Definition getitem (c : string) (df : frame) : result (list cell) :=
  match get_col c df with
  | Some v => Ok v
  | None => Raise (KeyError c)
  end.

(** Truth value of an optional string: [None] and the empty string are falsy. *)
Definition truthy_opt (s : option string) : bool :=
  match s with
  | None => false
  | Some s => Text.truthy s
  end.

(** ** The library interface *)

(** A resampling frequency once parsed ([to_offset]): [bin_label t] is the
    label of the bucket that holds the timestamp [t], and
    [bin_range first last] lists the labels of all the buckets from the
    bucket labelled [first] to the bucket labelled [last], empty buckets
    included. *)
Record Offset : Type := {
  bin_label : Z -> Z;
  bin_range : Z -> Z -> list Z
}.

Class Pandas : Type := {
  (** [pd.to_numeric] on one string; [None] when it does not parse *)
  numeric_of_string : string -> option Q;
  (** [pd.to_datetime(s, errors="coerce")] on one string; [None] is NaT *)
  datetime_of_string : string -> option Z;
  (** [pd.to_datetime(series, errors="coerce", infer_datetime_format=True)];
      the outer [None] is an exception, an inner [None] is NaT *)
  to_datetime : list cell -> option (list (option Z));
  (** [to_offset(freq)]; [None] when the frequency string is not valid *)
  to_offset : string -> option Offset;
  (** [str(x)] for a number and for a timestamp *)
  str_of_num : Q -> string;
  str_of_time : Z -> string;
  (** a reduction of the groups of a column that is not numeric
      (object or datetime dtype); [None] when pandas raises *)
  reduce_object : string -> list (list cell) -> option (list cell)
}.

(** ** Reductions of a list of numbers *)

Module Stats.

Local Open Scope Q_scope.

Definition qsum (xs : list Q) : Q := fold_right Qplus 0 xs.

Definition qlen (xs : list Q) : Q := inject_Z (Z.of_nat (List.length xs)).

Definition qmean (xs : list Q) : Q := qsum xs / qlen xs.

Definition qmin (x : Q) (xs : list Q) : Q := fold_left Qmin xs x.

Definition qmax (x : Q) (xs : list Q) : Q := fold_left Qmax xs x.

(** Sum of the squared deviations from the mean, over [ddof] less than
    the number of values: [ddof = 0] is the population variance. *)
Definition qvar (ddof : Z) (xs : list Q) : Q :=
  let m := qmean xs in
  qsum (map (fun x => (x - m) * (x - m)) xs)
  / inject_Z (Z.of_nat (List.length xs) - ddof).

Fixpoint insert_sorted (x : Q) (l : list Q) : list Q :=
  match l with
  | [] => [x]
  | y :: l' => if Qle_bool x y then x :: l else y :: insert_sorted x l'
  end.

Definition qsort (xs : list Q) : list Q := fold_right insert_sorted [] xs.

Definition qmedian (x : Q) (xs : list Q) : Q :=
  let s := qsort (x :: xs) in
  let n := List.length s in
  if Nat.even n
  then (nth (n / 2 - 1) s 0 + nth (n / 2) s 0) / 2
  else nth (n / 2) s 0.

End Stats.

(** The numbers of a series once the missing values are dropped. *)
Definition nums (v : list cell) : list Q :=
  flat_map (fun c => match c with CNum q => [q] | _ => [] end) v.

(** A column of numeric dtype: numbers and NaN only. *)
Definition numeric_dtype (v : list cell) : bool :=
  forallb (fun c => match c with CNum _ | CMissing => true | _ => false end) v.

(** ** processor.py *)

Module DataProcessor.
Section WithPandas.
Context {pd : Pandas}.

(** [pd.to_numeric(series, errors="coerce")], cell by cell: text is
    parsed, a number is kept, a timestamp is read as its integer value,
    anything that fails becomes NaN. *)
Definition to_numeric_cell (c : cell) : cell :=
  match c with
  | CStr s =>
      match numeric_of_string s with
      | Some q => CNum q
      | None => CMissing
      end
  | CNum q => CNum q
  | CTime t => CNum (inject_Z t)
  | CMissing => CMissing
  end.

Definition pd_to_numeric (v : list cell) : list cell := map to_numeric_cell v.

Definition to_numeric (df : frame) (columns : list string) : frame :=
  fold_left
    (fun df col => if col_in col df then update_col col pd_to_numeric df else df)
    columns df.

(** [series.astype(str)] on one cell; a missing number prints as [nan]. *)
Definition astype_str (c : cell) : string :=
  match c with
  | CStr s => s
  | CNum q => str_of_num q
  | CTime t => str_of_time t
  | CMissing => "nan"
  end.

(** [df[col].astype(str).str.strip().str.lower() == str(trace_token).lower()]
    on one cell *)
Definition trace_match (trace_token : string) (c : cell) : bool :=
  String.eqb (Text.lower (Text.strip (astype_str c))) (Text.lower trace_token).

(** [df.loc[mask, col] = replacement] on the cells of the column *)
Fixpoint assign_where (mask : list bool) (replacement : Q) (v : list cell) : list cell :=
  match mask, v with
  | b :: mask', c :: v' =>
      (if b then CNum replacement else c) :: assign_where mask' replacement v'
  | _, _ => v
  end.

Definition handle_trace_values (df : frame) (columns : list string)
    (trace_token : string) (replacement : Q) : frame :=
  fold_left
    (fun df col =>
       if col_in col df then
         match get_col col df with
         | Some s =>
             let mask := map (trace_match trace_token) s in
             if existsb (fun b => b) mask
             then update_col col (assign_where mask replacement) df
             else df
         | None => df
         end
       else df)
    columns df.

(** [series >= bound] and [series <= bound] on one cell.  A timestamp cell
    is compared with the bound, and the comparison is false when the cell
    or the bound is NaT; a cell that is not of datetime dtype is a
    TypeError, whatever the bound is.  Timestamps and bounds are without
    time zone, as the loader leaves them and as the dates [YYYY-MM-DD] of
    the command line parse: the TypeError of pandas for a bound with a time
    zone against a column without one (or the reverse) is outside the
    model. *)
Definition compare_cell (op : Z -> Z -> bool) (bound : option Z) (c : cell) : result bool :=
  match c with
  | CTime t =>
      match bound with
      | Some b => Ok (op t b)
      | None => Ok false
      end
  | CMissing => Ok false
  | _ => Raise TypeError
  end.

(** [df[df[datetime_col] op pd.to_datetime(bound, errors="coerce")]] *)
Definition keep_where (op : Z -> Z -> bool) (datetime_col bound : string) (df : frame)
    : result frame :=
  s <- getitem datetime_col df ;;
  mask <- mapM (compare_cell op (datetime_of_string bound)) s ;;
  Ok (take_rows mask df).

Definition filter_date_range (df : frame) (datetime_col : string)
    (start end_ : option string) : result frame :=
  if negb (col_in datetime_col df) then Ok df
  else
    df <- match start with
          | Some s => if Text.truthy s then keep_where Z.geb datetime_col s df else Ok df
          | None => Ok df
          end ;;
    match end_ with
    | Some e => if Text.truthy e then keep_where Z.leb datetime_col e df else Ok df
    | None => Ok df
    end.

(** The five reductions of a resampler. *)
Inductive reduction : Type := Mean | Sum | Min | Max | Median.

Definition reduction_of (agg : string) : option reduction :=
  if String.eqb agg "mean" then Some Mean
  else if String.eqb agg "sum" then Some Sum
  else if String.eqb agg "min" then Some Min
  else if String.eqb agg "max" then Some Max
  else if String.eqb agg "median" then Some Median
  else None.

(** One bucket of a numeric column reduced: missing values are skipped;
    a bucket without values gives NaN, except that its sum is 0. *)
Definition reduce_numeric (r : reduction) (bucket : list cell) : cell :=
  match r, nums bucket with
  | Sum, xs => CNum (Stats.qsum xs)
  | _, [] => CMissing
  | Mean, xs => CNum (Stats.qmean xs)
  | Min, x :: xs => CNum (Stats.qmin x xs)
  | Max, x :: xs => CNum (Stats.qmax x xs)
  | Median, x :: xs => CNum (Stats.qmedian x xs)
  end.

(** The timestamps of a DatetimeIndex.  [resample] refuses an index of
    text or numbers with a TypeError.  The loader drops the rows whose
    timestamp is NaT before anything is resampled, so the index of the
    program holds timestamps only; what pandas does with a NaT in the index
    is not modelled, and such an index is refused here as well. *)
Definition index_times (index : list cell) : result (list Z) :=
  mapM (fun c => match c with CTime t => Ok t | _ => Raise TypeError end) index.

(** The labels of the buckets: from the bucket of the earliest timestamp
    to the bucket of the latest, none for an empty index. *)
Definition bucket_labels (off : Offset) (times : list Z) : list Z :=
  match times with
  | [] => []
  | t :: ts =>
      bin_range off (bin_label off (fold_left Z.min ts t))
                    (bin_label off (fold_left Z.max ts t))
  end.

(** The cells of a column whose row falls in the bucket labelled [l]. *)
Definition bucket (off : Offset) (times : list Z) (l : Z) (v : list cell) : list cell :=
  select (map (fun t => bin_label off t =? l) times) v.

(** A column of the resampler reduced, bucket by bucket. *)
Definition reduce_column (agg : string) (r : reduction) (off : Offset)
    (times labels : list Z) (v : list cell) : result (list cell) :=
  let buckets := map (fun l => bucket off times l v) labels in
  if numeric_dtype v then Ok (map (reduce_numeric r) buckets)
  else
    match reduce_object agg buckets with
    | Some out => Ok out
    | None => Raise TypeError
    end.

(** [out.dropna(how="all")]: the positions where some column is not
    missing. *)
Definition notna_any (n : nat) (out : list (list cell)) : list bool :=
  map (fun i => existsb (fun v => notna (nth i v CMissing)) out) (seq 0 n).

Definition resample (df : frame) (datetime_col : string) (freq : option string)
    (agg : string) (cols : list string) : result (option frame) :=
  if negb (truthy_opt freq)
     || negb (col_in datetime_col df)
     || negb (forallb (fun c => col_in c df) cols)
  then Ok None
  else
    (* df.set_index(datetime_col)[cols] *)
    index <- getitem datetime_col df ;;
    let indexed := filter (fun nv : column => negb (String.eqb datetime_col (fst nv))) df in
    values <- mapM (fun c => getitem c indexed) cols ;;
    (* .resample(freq) *)
    off <- match to_offset (match freq with Some f => f | None => "" end) with
           | Some off => Ok off
           | None => Raise ValueError
           end ;;
    times <- index_times index ;;
    let labels := bucket_labels off times in
    (* the reduction *)
    out <- match reduction_of agg with
           | Some r => mapM (reduce_column agg r off times labels) values
           | None =>
               Raise (SystemExit ("Unsupported agg: " ++ agg
                                  ++ ". Choose from mean,sum,min,max,median."))
           end ;;
    (* .dropna(how="all").reset_index() *)
    let mask := notna_any (List.length labels) out in
    Ok (Some ((datetime_col, map CTime (select mask labels))
              :: combine cols (map (select mask) out))).

End WithPandas.
End DataProcessor.

(** ** loader.py *)

Module CSVLoader.
Section WithPandas.
Context {pd : Pandas}.

(** A score is a float: [None] is NaN, the mean of an empty series. *)
Definition score : Type := option Q.

Definition count_notna (parsed : list (option Z)) : nat :=
  List.length (filter (fun p => match p with Some _ => true | None => false end) parsed).

(** [float(parsed.notna().mean())] *)
Definition notna_mean (parsed : list (option Z)) : score :=
  match parsed with
  | [] => None
  | _ => Some (inject_Z (Z.of_nat (count_notna parsed))
               / inject_Z (Z.of_nat (List.length parsed)))%Q
  end.

Definition _score_datetime (series : list cell) (sample : nat) : score :=
  match to_datetime (firstn sample series) with
  | Some parsed => notna_mean parsed
  | None => Some 0%Q
  end.

(** [x >= 0.8]; false on NaN *)
Definition ge_threshold (x : score) : bool :=
  match x with
  | Some q => Qle_bool (8 # 10) q
  | None => false
  end.

(** [x < y] on floats; false when either is NaN *)
Definition score_lt (x y : score) : bool :=
  match x, y with
  | Some p, Some q => negb (Qle_bool q p)
  | _, _ => false
  end.

Fixpoint insert_desc (x : string * score) (l : list (string * score))
    : list (string * score) :=
  match l with
  | [] => [x]
  | y :: l' => if score_lt (snd x) (snd y) then y :: insert_desc x l' else x :: l
  end.

(** [sorted(l, key=lambda x: x[1], reverse=True)]: a stable sort, highest
    score first, columns of equal score in their order.  (The order that
    Python gives when some keys are NaN and some are not is not
    modelled; the columns of a frame have the same number of rows, so
    their scores are all NaN or all numbers.) *)
Definition sorted_desc (l : list (string * score)) : list (string * score) :=
  fold_right insert_desc [] l.

(** [any(k in c.lower() for k in ["date", "time"])] *)
Definition name_hint (c : string) : bool :=
  existsb (fun k => Text.contains k (Text.lower c)) ["date"; "time"].

Definition detect_datetime_col (df : frame) : option string :=
  (* Pass 1: name-based candidates *)
  let candidates := filter name_hint (columns df) in
  match find (fun c => ge_threshold (_score_datetime (series_of df c) 100)) candidates with
  | Some c => Some c
  | None =>
      (* Pass 2: score everything and take the best if it meets the threshold *)
      let scored :=
        sorted_desc (map (fun c => (c, _score_datetime (series_of df c) 100)) (columns df)) in
      match scored with
      | (c, s) :: _ => if ge_threshold s then Some c else None
      | [] => None
      end
  end.

(** [df.sort_values(by=datetime_col)] sorts with numpy's quicksort, which
    is not stable: the order in which the rows of equal timestamps come
    out is numpy's.  [argsort ts] is the order of the positions that numpy
    gives for the timestamps [ts]. *)
Class Numpy : Type := {
  argsort : list Z -> list nat
}.

Definition cell_of_stamp (p : option Z) : cell :=
  match p with
  | Some t => CTime t
  | None => CMissing
  end.

(** The timestamps of a column, NaT left out. *)
Definition stamps (v : list cell) : list Z :=
  flat_map (fun c => match c with CTime t => [t] | _ => [] end) v.

(** The rows of the frame at the positions [idx], in that order. *)
Definition reorder (idx : list nat) (df : frame) : frame :=
  map (fun nv : column => (fst nv, map (fun i => nth i (snd nv) CMissing) idx)) df.

(** [load], from the frame that [read_csv] returned.  An exception of the
    parse of the column is propagated; it is recorded as ValueError,
    whatever its class in pandas. *)
Definition load_frame {np : Numpy} (df : frame) (datetime_col : option string)
    : result (frame * option string) :=
  (* Auto-detect datetime column unless the caller specified it explicitly. *)
  let datetime_col :=
    match datetime_col with
    | None => detect_datetime_col df
    | Some c => Some c
    end in
  match datetime_col with
  | Some c =>
      if col_in c df then
        s <- getitem c df ;;
        parsed <- match to_datetime s with
                  | Some parsed => Ok parsed
                  | None => Raise ValueError
                  end ;;
        (* df[datetime_col] = pd.to_datetime(...) *)
        let df := update_col c (fun _ => map cell_of_stamp parsed) df in
        (* df = df.dropna(subset=[datetime_col]).copy() *)
        let df := take_rows (map notna (series_of df c)) df in
        (* df = df.sort_values(by=datetime_col) *)
        let df := reorder (argsort (stamps (series_of df c))) df in
        Ok (df, Some c)
      else Ok (df, Some c)
  | None => Ok (df, None)
  end.

End WithPandas.
End CSVLoader.

(** ** summary.py *)

Module Summarizer.
Section WithPandas.
Context {pd : Pandas}.

(** A row of the summary.  The standard deviation is irrational in
    general: the row carries its square, [s.std(ddof=0) ** 2], and [std]
    below is its square root. *)
Record summary_row : Type := {
  column : string;
  count : Z;
  mean : Q;
  variance : Q;
  min : Q;
  max : Q
}.

Definition std (r : summary_row) : R := sqrt (Q2R (variance r)).

Definition table (df : frame) (cols : list string) : list summary_row :=
  flat_map
    (fun col =>
       if negb (col_in col df) then []
       else
         match get_col col df with
         | None => []
         | Some v =>
             (* s = pd.to_numeric(df[col], errors="coerce").dropna() *)
             match nums (DataProcessor.pd_to_numeric v) with
             | [] => []
             | x :: xs =>
                 let s := x :: xs in
                 [ {| column := col;
                      count := Z.of_nat (List.length s);
                      mean := Stats.qmean s;
                      variance := Stats.qvar 0 s;
                      min := Stats.qmin x xs;
                      max := Stats.qmax x xs |} ]
             end
         end)
    cols.

End WithPandas.
End Summarizer.

(** ** utils.py *)

Module Utils.

(** [re.sub(r"\s+", "-", value)]: [in_ws] holds inside a run of white
    space whose hyphen is already written. *)
Fixpoint collapse_ws (in_ws : bool) (s : string) : string :=
  match s with
  | EmptyString => EmptyString
  | String a s' =>
      if Text.is_space a
      then (if in_ws then collapse_ws true s' else String "-" (collapse_ws true s'))
      else String a (collapse_ws false s')
  end.

Definition is_safe (a : ascii) : bool :=
  Text.is_alnum a || Ascii.eqb a "." || Ascii.eqb a "_" || Ascii.eqb a "-".

(** [re.sub(r"[^A-Za-z0-9._-]", "", value)] *)
Fixpoint keep_safe (s : string) : string :=
  match s with
  | EmptyString => EmptyString
  | String a s' => if is_safe a then String a (keep_safe s') else keep_safe s'
  end.

Definition slugify (value : string) : string :=
  let value := collapse_ws false (Text.strip value) in
  let value := keep_safe value in
  if Text.truthy value then value else "figure".

End Utils.

(** ** visualizer.py *)

Module Visualizer.
Section WithPandas.
Context {pd : Pandas}.

(** A figure saved to a file: what the program hands to matplotlib.  A
    line chart has no bin count.  The calls into matplotlib themselves
    are taken to succeed. *)
Record figure : Type := {
  title : string;
  xlabel : string;
  ylabel : string;
  hist_bins : option Z;
  file : string
}.

(** [str(outdir / name)], for an output directory given as a plain path
    (["figures"], ["out/run1"]): pathlib also drops a leading ["."] and
    empty components, which is not modelled. *)
Definition path_join (outdir name : string) : string := outdir ++ "/" ++ name.

(** The paths returned so far and the figures saved so far. *)
Definition plots : Type := (list string * list figure)%type.

(** The body of the loop of [timeseries] for one requested column. *)
Definition timeseries_body (df : frame) (datetime_col outdir suffix : string)
    (st : plots) (col : string) : result plots :=
  if negb (col_in col df) then Ok st
  else
    (* ax.plot(df[datetime_col], df[col]) *)
    _ <- getitem datetime_col df ;;
    _ <- getitem col df ;;
    let out := path_join outdir (Utils.slugify col ++ suffix ++ ".png") in
    Ok ((fst st ++ [out])%list,
        (snd st ++ [ {| title := col ++ " over time" ++ suffix;
                       xlabel := datetime_col;
                       ylabel := col;
                       hist_bins := None;
                       file := out |} ])%list).

Definition timeseries (df : frame) (datetime_col : string) (value_cols : list string)
    (outdir suffix : string) : result plots :=
  for_each (timeseries_body df datetime_col outdir suffix) value_cols ([], []).

(** [max(10, min(50, int(np.sqrt(n)))) if bins == 0 else bins] *)
Definition auto_bins (bins : Z) (n : Z) : Z :=
  if bins =? 0 then Z.max 10 (Z.min 50 (Z.sqrt n)) else bins.

(** The body of the loop of [histograms] for one requested column. *)
Definition histograms_body (df : frame) (outdir : string) (bins : Z) (suffix : string)
    (st : plots) (col : string) : result plots :=
  if negb (col_in col df) then Ok st
  else
    v <- getitem col df ;;
    (* series = pd.to_numeric(df[col], errors="coerce").dropna() *)
    let series := nums (DataProcessor.pd_to_numeric v) in
    match series with
    | [] => Ok st
    | _ =>
        let out := path_join outdir (Utils.slugify col ++ "_hist" ++ suffix ++ ".png") in
        Ok ((fst st ++ [out])%list,
            (snd st ++ [ {| title := col ++ " histogram" ++ suffix;
                           xlabel := col;
                           ylabel := "Count";
                           hist_bins :=
                             Some (auto_bins bins (Z.of_nat (List.length series)));
                           file := out |} ])%list)
    end.

Definition histograms (df : frame) (value_cols : list string)
    (outdir : string) (bins : Z) (suffix : string) : result plots :=
  for_each (histograms_body df outdir bins suffix) value_cols ([], []).

End WithPandas.
End Visualizer.

(** ** __main__.py *)

Module Main.
Section WithPandas.
Context {pd : Pandas}.

(** The flags that the processing steps of [main] read. *)
Record Args : Type := {
  value_cols : option (list string);
  numeric_cols : option (list string);
  start : option string;
  end_ : option string;
  trace_as_zero : bool;
  resample : option string;
  agg : string
}.

(** [args.value_cols or []] *)
Definition wanted_cols (args : Args) : list string :=
  match value_cols args with
  | Some l => l
  | None => []
  end.

(** [args.numeric_cols if args.numeric_cols else wanted_cols]: an empty
    list is falsy. *)
Definition numeric_columns (args : Args) : list string :=
  match numeric_cols args with
  | Some (c :: l) => c :: l
  | _ => wanted_cols args
  end.

(** Steps 3 to 6 of [main], from the loaded frame and its datetime column:
    the numeric coercion, the handling of trace values, the date filter and
    the resampling.  The result is the cleaned frame and the resampled
    frame, none when no resampling was asked for. *)
Definition process (args : Args) (df : frame) (dtcol : string)
    : result (frame * option frame) :=
  let wanted := wanted_cols args in
  let numeric := numeric_columns args in
  let df := DataProcessor.to_numeric df numeric in
  let df := if trace_as_zero args
            then DataProcessor.handle_trace_values df numeric "Trace" 0
            else df in
  df <- DataProcessor.filter_date_range df dtcol (start args) (end_ args) ;;
  resampled <- (if truthy_opt (resample args)
                then DataProcessor.resample df dtcol (resample args) (agg args) wanted
                else Ok None) ;;
  Ok (df, resampled).

(** [target = resampled if resampled is not None else df] *)
Definition target (df : frame) (resampled : option frame) : frame :=
  match resampled with
  | Some r => r
  | None => df
  end.

(** [suffix = "" if resampled is None else f"_{args.resample}_{args.agg}"] *)
Definition suffix (args : Args) (resampled : option frame) : string :=
  match resampled with
  | None => ""
  | Some _ =>
      "_" ++ match resample args with Some f => f | None => "None" end
          ++ "_" ++ agg args
  end.

(** [target.columns[0] if resampled is not None else dtcol], the column
    that step 8 plots against; none stands for the IndexError of a frame
    without columns. *)
Definition time_axis (dtcol : string) (resampled : option frame) : option string :=
  match resampled with
  | Some r => hd_error (columns r)
  | None => Some dtcol
  end.

End WithPandas.
End Main.

(** ** An instance of the library interface

    A small fragment of pandas, enough to run the functions above on
    concrete tables: decimal numbers, ISO dates [YYYY-MM-DD], and the daily
    frequency ["D"].  What the fragment parses, pandas parses to the same
    value; pandas parses more (other date formats, exponents, other
    frequencies), but none of the texts that the examples below rely on
    being rejected. *)

Module Sample.

Definition digit_of (a : ascii) : option Z :=
  let n := nat_of_ascii a in
  if ((48 <=? n)%nat && (n <=? 57)%nat)%bool then Some (Z.of_nat (n - 48)) else None.

(** The value of a non-empty run of decimal digits. *)
Fixpoint digits_from (acc : Z) (s : string) : option Z :=
  match s with
  | EmptyString => Some acc
  | String a s' =>
      match digit_of a with
      | Some d => digits_from (10 * acc + d) s'
      | None => None
      end
  end.

Definition digits (s : string) : option Z :=
  match s with
  | EmptyString => None
  | _ => digits_from 0 s
  end.

(** The text before and after the first [sep], when there is one. *)
Fixpoint split_at (sep : ascii) (s : string) : option (string * string) :=
  match s with
  | EmptyString => None
  | String a s' =>
      if Ascii.eqb a sep then Some (EmptyString, s')
      else match split_at sep s' with
           | Some (l, r) => Some (String a l, r)
           | None => None
           end
  end.

Definition unsigned_decimal (s : string) : option Q :=
  match split_at "." s with
  | None => option_map inject_Z (digits s)
  | Some (i, f) =>
      match digits i, digits f with
      | Some a, Some b =>
          Some (inject_Z a + inject_Z b / inject_Z (10 ^ Z.of_nat (String.length f)))%Q
      | _, _ => None
      end
  end.

Definition decimal (s : string) : option Q :=
  match Text.strip s with
  | String "-" s' => option_map Qopp (unsigned_decimal s')
  | s' => unsigned_decimal s'
  end.

Definition leap (y : Z) : bool :=
  ((y mod 4 =? 0) && negb (y mod 100 =? 0)) || (y mod 400 =? 0).

Definition days_in_month (y m : Z) : Z :=
  if m =? 2 then (if leap y then 29 else 28)
  else if (m =? 4) || (m =? 6) || (m =? 9) || (m =? 11) then 30
  else 31.

(** Days from 1970-01-01 to the civil date [y-m-d]. *)
Definition days_from_civil (y m d : Z) : Z :=
  let y' := if m <=? 2 then y - 1 else y in
  let era := y' / 400 in
  let yoe := y' - era * 400 in
  let doy := (153 * (if 2 <? m then m - 3 else m + 9) + 2) / 5 + d - 1 in
  let doe := yoe * 365 + yoe / 4 - yoe / 100 + doy in
  era * 146097 + doe - 719468.

Definition day_ns : Z := 86400 * 1000000000.

Definition iso_date (s : string) : option Z :=
  match split_at "-" s with
  | Some (ys, rest) =>
      match split_at "-" rest with
      | Some (ms, ds) =>
          match digits ys, digits ms, digits ds with
          | Some y, Some m, Some d =>
              if ((String.length ys =? 4)%nat && (String.length ms =? 2)%nat
                  && (String.length ds =? 2)%nat
                  && (1 <=? m) && (m <=? 12) && (1 <=? d) && (d <=? days_in_month y m))%bool
              then Some (days_from_civil y m d * day_ns)
              else None
          | _, _, _ => None
          end
      | None => None
      end
  | None => None
  end.

Definition datetime_of_cell (c : cell) : option Z :=
  match c with
  | CStr s => iso_date s
  | CTime t => Some t
  | _ => None
  end.

(** The daily frequency: buckets are the days, each labelled by its
    midnight. *)
Definition daily : Offset := {|
  bin_label := fun t => t / day_ns * day_ns;
  bin_range := fun first last =>
    map (fun k => first + Z.of_nat k * day_ns)
        (seq 0 (Z.to_nat ((last - first) / day_ns) + 1))
|}.

(** Midnight of the civil date [y-m-d] as a timestamp. *)
Definition day (y m d : Z) : Z := days_from_civil y m d * day_ns.

Definition string_of_Z (z : Z) : string :=
  NilZero.string_of_int (Z.to_int z).

(** The least [k] below the fuel with [10 ^ k * n] a multiple of [d]. *)
Fixpoint decimal_places (fuel : nat) (k : Z) (n d : Z) : option Z :=
  match fuel with
  | O => None
  | S fuel' =>
      if (10 ^ k * n) mod d =? 0 then Some k else decimal_places fuel' (k + 1) n d
  end.

Fixpoint pad_zeros (width : nat) (s : string) : string :=
  match width with
  | O => s
  | S w => if (String.length s <? width)%nat then pad_zeros w (String "0" s) else s
  end.

(** [str(x)] for a float with a short decimal expansion: [2.0], [1.5],
    [-0.25].  A number without one prints as a fraction, which is not what
    Python prints. *)
Definition string_of_Q (q : Q) : string :=
  let n := Z.abs (Qnum q) in
  let d := Zpos (Qden q) in
  let sign := if Qnum q <? 0 then "-" else "" in
  match decimal_places 18 0 n d with
  | Some k =>
      let scaled := 10 ^ k * n / d in
      let k' := Z.max 1 k in
      let scaled' := if k =? 0 then 10 * scaled else scaled in
      sign ++ string_of_Z (scaled' / 10 ^ k') ++ "."
           ++ pad_zeros (Z.to_nat k') (string_of_Z (scaled' mod 10 ^ k'))
  | None => sign ++ string_of_Z n ++ "/" ++ string_of_Z d
  end.

Definition pandas : Pandas := {|
  numeric_of_string := decimal;
  datetime_of_string := iso_date;
  to_datetime := fun series => Some (map datetime_of_cell series);
  to_offset := fun freq => if String.eqb freq "D" then Some daily else None;
  str_of_num := string_of_Q;
  str_of_time := string_of_Z;
  reduce_object := fun _ _ => None
|}.

(** An order of the positions that sorts the timestamps: insertion of
    each position before the first position of a greater timestamp. *)
Fixpoint insert_position (ts : list Z) (i : nat) (idx : list nat) : list nat :=
  match idx with
  | [] => [i]
  | j :: idx' =>
      if nth i ts 0 <? nth j ts 0 then i :: idx else j :: insert_position ts i idx'
  end.

Definition numpy : CSVLoader.Numpy := {|
  CSVLoader.argsort := fun ts =>
    fold_left (fun idx i => insert_position ts i idx) (seq 0 (List.length ts)) []
|}.

End Sample.

(** * Vocabulary of the properties *)

(** [on_columns cols g df]: the frame [df] with [g] applied to every cell
    of the columns named in [cols], and the other columns as they are. *)
Definition on_columns (cols : list string) (g : cell -> cell) (df : frame) : frame :=
  map (fun nv : column =>
         if existsb (fun c => String.eqb c (fst nv)) cols
         then (fst nv, map g (snd nv))
         else nv)
      df.

(** What [handle_trace_values] does to one cell of a listed column. *)
Definition replace_trace {pd : Pandas} (trace_token : string) (replacement : Q)
    (c : cell) : cell :=
  if DataProcessor.trace_match trace_token c then CNum replacement else c.

(** The bin count in the words of the specification: the integer nearest
    to the square root of [n], clamped to [10, 50]. *)
Definition round_sqrt (n : Z) : Z :=
  let r := Z.sqrt n in if r <? n - r * r then r + 1 else r.

Definition spec_auto_bins (n : Z) : Z := Z.max 10 (Z.min 50 (round_sqrt n)).

(** [b] is the integer part of the square root of [n], clamped to
    [10, 50]. *)
Definition clamped_floor_sqrt (n b : Z) : Prop :=
  10 <= b <= 50
  /\ (n < 100 -> b = 10)
  /\ (2500 <= n -> b = 50)
  /\ (100 <= n < 2500 -> b * b <= n < (b + 1) * (b + 1)).

(** What [histograms] saves for one requested column. *)
Definition hist_figure {pd : Pandas} (df : frame) (outdir : string) (bins : Z)
    (suffix col : string) : list Visualizer.figure :=
  match get_col col df with
  | None => []
  | Some v =>
      match nums (DataProcessor.pd_to_numeric v) with
      | [] => []
      | series =>
          [ {| Visualizer.title := col ++ " histogram" ++ suffix;
               Visualizer.xlabel := col;
               Visualizer.ylabel := "Count";
               Visualizer.hist_bins :=
                 Some (Visualizer.auto_bins bins (Z.of_nat (List.length series)));
               Visualizer.file :=
                 Visualizer.path_join outdir
                   (Utils.slugify col ++ "_hist" ++ suffix ++ ".png") |} ]
      end
  end.

(** The figures that a call saved; none when it raised. *)
Definition figures_of (r : result Visualizer.plots) : list Visualizer.figure :=
  match r with
  | Ok (_, figs) => figs
  | Raise _ => []
  end.

(** A column of datetime dtype, as the loader leaves the datetime column:
    timestamps and NaT only. *)
Definition datetime_dtype (v : list cell) : bool :=
  forallb (fun c => match c with CTime _ | CMissing => true | _ => false end) v.

(** The frame with its columns and none of its rows. *)
Definition no_rows (df : frame) : frame :=
  map (fun nv : column => (fst nv, @nil cell)) df.

(** [cell op bound] on a column of datetime dtype: false for NaT on either
    side. *)
Definition cmp_bound (op : Z -> Z -> bool) (bound : option Z) (c : cell) : bool :=
  match bound, c with
  | Some b, CTime t => op t b
  | _, _ => false
  end.

(** The timestamp lies in the closed interval from [a] to [b]. *)
Definition between (a b : Z) (c : cell) : bool :=
  match c with
  | CTime t => (a <=? t) && (t <=? b)
  | _ => false
  end.

(** A bound that is given, not empty, and does not parse. *)
Definition unparsable {pd : Pandas} (bound : option string) : Prop :=
  exists s, bound = Some s /\ s <> "" /\ datetime_of_string s = None.

(** The date filter in the words of the specification: each bound, if
    provided, is parsed; an unparsable bound acts as a missing bound; a
    row qualifies when it satisfies the bounds that remain. *)
Definition spec_bound {pd : Pandas} (bound : option string) : option Z :=
  match bound with
  | Some s => datetime_of_string s
  | None => None
  end.

Definition spec_qualifies (lo hi : option Z) (c : cell) : bool :=
  match lo with
  | Some a => match c with CTime t => a <=? t | _ => false end
  | None => true
  end
  && match hi with
     | Some b => match c with CTime t => t <=? b | _ => false end
     | None => true
     end.

Definition spec_filter_date_range {pd : Pandas} (df : frame) (datetime_col : string)
    (start end_ : option string) : frame :=
  if negb (col_in datetime_col df) then df
  else take_rows (map (spec_qualifies (spec_bound start) (spec_bound end_))
                      (series_of df datetime_col)) df.

(** Every cell of a series is missing. *)
Definition all_missing (v : list cell) : bool := forallb (fun c => negb (notna c)) v.

(** In the bucket labelled [l], every one of the selected columns is
    entirely missing. *)
Definition bucket_all_missing (off : Offset) (times : list Z) (l : Z)
    (values : list (list cell)) : bool :=
  forallb (fun v => all_missing (DataProcessor.bucket off times l v)) values.

(** The bucket labels of a resampled frame: the timestamps of its first
    column. *)
Definition bucket_times (out : frame) : list Z :=
  match out with
  | [] => []
  | (_, v) :: _ => flat_map (fun c => match c with CTime t => [t] | _ => [] end) v
  end.

(** What is assumed of the reductions of pandas on a column that is not
    numeric: other than the sum, the reduction of a bucket whose cells are
    all missing is missing. *)
Definition object_reductions_skip_missing {pd : Pandas} : Prop :=
  forall agg buckets out i,
    agg <> "sum" ->
    reduce_object agg buckets = Some out ->
    (i < List.length buckets)%nat ->
    all_missing (nth i buckets []) = true ->
    nth i out CMissing = CMissing.

(** A table of four readings over four days, the first two on the same
    day and none on the third. *)
Definition readings : frame :=
  [("Date/Time", [CTime (Sample.day 2025 1 1);
                  CTime (Sample.day 2025 1 1 + 3600000000000);
                  CTime (Sample.day 2025 1 2);
                  CTime (Sample.day 2025 1 4)]);
   ("Rain", [CNum 2; CNum 4; CMissing; CNum 1]);
   ("Snow", [CMissing; CMissing; CMissing; CNum 5])].

(** A column of 100 values of which 95 are dates. *)
Definition mostly_dates : list cell :=
  (repeat (CStr "2025-01-01") 95 ++ repeat (CStr "M") 5)%list.


(** Every character of the string satisfies [p]. *)
Fixpoint string_forall (p : ascii -> bool) (s : string) : bool :=
  match s with
  | EmptyString => true
  | String a s' => p a && string_forall p s'
  end.

(** The table has the column and, once coerced, the column has at least
    one number. *)
Definition has_numbers {pd : Pandas} (df : frame) (col : string) : bool :=
  match get_col col df with
  | Some v =>
      match nums (DataProcessor.pd_to_numeric v) with
      | [] => false
      | _ => true
      end
  | None => false
  end.

(** The character occurs in the string. *)
Fixpoint mentions (a : ascii) (s : string) : bool :=
  match s with
  | EmptyString => false
  | String b s' => Ascii.eqb a b || mentions a s'
  end.

(** Whether the name is among the listed columns. *)
Definition listed (cols : list string) (c : string) : bool :=
  existsb (fun c' => String.eqb c' c) cols.

(** The test that [filter_date_range] applies to the cells of a datetime
    column: none when neither bound is given (or both are empty), else the
    conjunction of the comparisons with the bounds that are given. *)
Definition bound_test {pd : Pandas} (op : Z -> Z -> bool) (bound : option string)
    : option (cell -> bool) :=
  match bound with
  | Some s => if Text.truthy s then Some (cmp_bound op (datetime_of_string s)) else None
  | None => None
  end.

Definition date_test {pd : Pandas} (start end_ : option string) : option (cell -> bool) :=
  match bound_test Z.geb start, bound_test Z.leb end_ with
  | None, None => None
  | Some f, None => Some f
  | None, Some g => Some g
  | Some f, Some g => Some (fun c => f c && g c)
  end.

(** The rows of the frame that pass a test on the cells of [v]; the frame
    itself when there is no test. *)
Definition narrow (test : option (cell -> bool)) (v : list cell) (df : frame) : frame :=
  match test with
  | None => df
  | Some h => take_rows (map h v) df
  end.

(** The timestamps do not decrease along the list. *)
Fixpoint nondecreasing (ts : list Z) : bool :=
  match ts with
  | a :: (b :: _) as rest => (a <=? b) && nondecreasing rest
  | _ => true
  end.

(** The timestamps that parsed, NaT left out. *)
Definition parsed_stamps (parsed : list (option Z)) : list Z :=
  flat_map (fun p => match p with Some t => [t] | None => [] end) parsed.

(** What [sort_values] relies on, for the timestamps [ts]: the order that
    numpy gives has as many positions as there are timestamps, all of them
    positions of [ts], and the timestamps do not decrease along it. *)
Definition argsort_sorts {np : CSVLoader.Numpy} (ts : list Z) : bool :=
  (List.length (CSVLoader.argsort ts) =? List.length ts)%nat
  && forallb (fun i => (i <? List.length ts)%nat) (CSVLoader.argsort ts)
  && nondecreasing (map (fun i => nth i ts 0) (CSVLoader.argsort ts)).

(** * Properties *)

(** ** Frames *)

Lemma columns_update_col c f df : columns (update_col c f df) = columns df.
Proof.
  unfold columns, update_col. rewrite map_map. apply map_ext.
  intros [n v]; simpl. now destruct (String.eqb c n).
Qed.

Lemma on_columns_nil g df : on_columns [] g df = df.
Proof.
  unfold on_columns. simpl. rewrite <- (map_id df) at 2. apply map_ext. now intros [n v].
Qed.

Lemma on_columns_cons cols g c df :
  (forall x, g (g x) = g x) ->
  on_columns cols g (update_col c (map g) df) = on_columns (c :: cols) g df.
Proof.
  intros idem. unfold on_columns, update_col. rewrite map_map. apply map_ext.
  intros [n v]; simpl.
  destruct (String.eqb c n) eqn:E; simpl.
  - destruct (existsb _ cols); [| reflexivity].
    f_equal. rewrite map_map. apply map_ext. intros; apply idem.
  - reflexivity.
Qed.

Lemma col_in_get_col c df : col_in c df = true -> exists v, get_col c df = Some v.
Proof.
  unfold col_in, columns. induction df as [| [n v] df IH]; simpl; [discriminate |].
  destruct (String.eqb c n); simpl; eauto.
Qed.

Lemma get_col_In c df v : get_col c df = Some v -> In (c, v) df.
Proof.
  induction df as [| [n w] df IH]; simpl; [discriminate |].
  destruct (String.eqb c n) eqn:E.
  - apply String.eqb_eq in E. intros [= ->]. subst. now left.
  - intros H. right. now apply IH.
Qed.

Lemma col_in_false_get_col c df : col_in c df = false -> get_col c df = None.
Proof.
  unfold col_in, columns. induction df as [| [n v] df IH]; simpl; [reflexivity |].
  destruct (String.eqb c n); simpl; [discriminate | exact IH].
Qed.

Lemma col_in_In c df : col_in c df = true <-> In c (columns df).
Proof.
  unfold col_in. rewrite existsb_exists. split.
  - intros (x & Hx & E). apply String.eqb_eq in E. now subst.
  - intros H. exists c. split; [exact H | apply String.eqb_refl].
Qed.

(** In a frame with distinct column names, the column found under a name
    is the only one of that name. *)
Lemma get_col_unique c df v n w :
  NoDup (columns df) -> get_col c df = Some v -> In (n, w) df -> String.eqb c n = true -> w = v.
Proof.
  induction df as [| [n' v'] df IH]; simpl; [contradiction |].
  intros ND G I E. apply String.eqb_eq in E. subst n.
  inversion ND as [| ? ? Hn ND']; subst.
  destruct (String.eqb c n') eqn:E'.
  - apply String.eqb_eq in E'. subst n'. injection G as ->.
    destruct I as [I | I]; [now injection I |].
    exfalso. apply Hn. unfold columns. change c with (fst (c, w)). now apply in_map.
  - destruct I as [I | I].
    + injection I as -> ->. now rewrite String.eqb_refl in E'.
    + apply (IH ND' G I). apply String.eqb_refl.
Qed.

(** ** processor.py: numeric coercion and trace values *)

Section ProcessorCells.
Context {pd : Pandas}.

Lemma to_numeric_cell_idem c :
  DataProcessor.to_numeric_cell (DataProcessor.to_numeric_cell c)
  = DataProcessor.to_numeric_cell c.
Proof.
  destruct c as [s | q | t |]; simpl; try reflexivity.
  now destruct (numeric_of_string s).
Qed.

(** [to_numeric] coerces every cell of the listed columns that the frame
    has, and nothing else. *)
Lemma to_numeric_on_columns cols df :
  DataProcessor.to_numeric df cols
  = on_columns cols DataProcessor.to_numeric_cell df.
Proof.
  unfold DataProcessor.to_numeric. revert df.
  induction cols as [| c cols IH]; intros df; simpl.
  - now rewrite on_columns_nil.
  - assert (E : (if col_in c df
                 then update_col c DataProcessor.pd_to_numeric df else df)
                = update_col c DataProcessor.pd_to_numeric df).
    { destruct (col_in c df) eqn:Hc; [reflexivity |].
      unfold update_col. rewrite <- (map_id df) at 1. apply map_ext_in.
      intros [n v] Hin; simpl. destruct (String.eqb c n) eqn:E; [| reflexivity].
      apply String.eqb_eq in E. subst n.
      assert (col_in c df = true) as Hc'.
      { apply col_in_In. unfold columns. change c with (fst (c, v)). now apply in_map. }
      congruence. }
    rewrite E, IH. apply on_columns_cons. apply to_numeric_cell_idem.
Qed.

(** C9. [to_numeric] is idempotent: for every table and every list of
    columns, applying [to_numeric] to the result of a first application
    gives the same table, cell for cell, as the single application. *)
Theorem to_numeric_idempotent (df : frame) (cols : list string) :
  DataProcessor.to_numeric (DataProcessor.to_numeric df cols) cols
  = DataProcessor.to_numeric df cols.
Proof.
  rewrite !to_numeric_on_columns. unfold on_columns. rewrite map_map.
  apply map_ext. intros [n v]; simpl.
  destruct (existsb (fun c => String.eqb c n) cols) eqn:E; simpl; rewrite E;
    [| reflexivity].
  f_equal. rewrite map_map. apply map_ext. intros; apply to_numeric_cell_idem.
Qed.

End ProcessorCells.

Section TraceValues.
Context {pd : Pandas}.

Lemma assign_where_mask trace_token replacement v :
  DataProcessor.assign_where
    (map (DataProcessor.trace_match trace_token) v) replacement v
  = map (replace_trace trace_token replacement) v.
Proof. induction v as [| c v IH]; simpl; [reflexivity | now rewrite IH]. Qed.

Lemma no_match_unchanged trace_token replacement v :
  existsb (fun b : bool => b) (map (DataProcessor.trace_match trace_token) v) = false ->
  map (replace_trace trace_token replacement) v = v.
Proof.
  induction v as [| c v IH]; simpl; [reflexivity |].
  intros H. apply orb_false_iff in H as [Hc Hv].
  unfold replace_trace at 1. rewrite Hc. now rewrite IH.
Qed.

Lemma replace_trace_idem trace_token replacement c :
  replace_trace trace_token replacement (replace_trace trace_token replacement c)
  = replace_trace trace_token replacement c.
Proof.
  unfold replace_trace.
  destruct (DataProcessor.trace_match trace_token c) eqn:E.
  - now destruct (DataProcessor.trace_match trace_token (CNum replacement)).
  - now rewrite E.
Qed.

Lemma handle_trace_values_on_columns df cols trace_token replacement :
  NoDup (columns df) ->
  DataProcessor.handle_trace_values df cols trace_token replacement
  = on_columns cols (replace_trace trace_token replacement) df.
Proof.
  unfold DataProcessor.handle_trace_values. revert df.
  induction cols as [| c cols IH]; intros df ND; simpl.
  - now rewrite on_columns_nil.
  - set (g := replace_trace trace_token replacement).
    match goal with
    | |- fold_left ?f cols ?d = _ =>
        assert (E : d = update_col c (map g) df); [| rewrite E, (IH _); clear E]
    end.
    + destruct (col_in c df) eqn:Hc.
      * destruct (col_in_get_col _ _ Hc) as [v Hv]. rewrite Hv.
        assert (U : forall f, (forall n w, In (n, w) df -> String.eqb c n = true ->
                                           f w = map g w) ->
                              update_col c f df = update_col c (map g) df).
        { intros f Hf. unfold update_col. apply map_ext_in. intros [n w] Hin; simpl.
          destruct (String.eqb c n) eqn:E; [| reflexivity]. now rewrite (Hf n w). }
        destruct (existsb _ _) eqn:Hany.
        -- apply U. intros n w Hin E.
           rewrite (get_col_unique _ _ _ _ _ ND Hv Hin E). apply assign_where_mask.
        -- unfold update_col. rewrite <- (map_id df) at 1. apply map_ext_in.
           intros [n w] Hin; simpl. destruct (String.eqb c n) eqn:E; [| reflexivity].
           rewrite (get_col_unique _ _ _ _ _ ND Hv Hin E).
           unfold g. now rewrite no_match_unchanged.
      * unfold update_col. rewrite <- (map_id df) at 1. apply map_ext_in.
        intros [n w] Hin; simpl. destruct (String.eqb c n) eqn:E; [| reflexivity].
        apply String.eqb_eq in E. subst n.
        assert (col_in c df = true) as Hc'.
        { apply col_in_In. unfold columns. change c with (fst (c, w)). now apply in_map. }
        congruence.
    + apply on_columns_cons. apply replace_trace_idem.
    + now rewrite columns_update_col.
Qed.

Lemma columns_handle_trace_values df cols trace_token replacement :
  columns (DataProcessor.handle_trace_values df cols trace_token replacement)
  = columns df.
Proof.
  unfold DataProcessor.handle_trace_values. revert df.
  induction cols as [| c cols IH]; intros df; simpl; [reflexivity |].
  rewrite IH. destruct (col_in c df); [| reflexivity].
  destruct (get_col c df); [| reflexivity].
  destruct (existsb _ _); [apply columns_update_col | reflexivity].
Qed.

(** C8. [handle_trace_values] replaces a cell of a listed column by the
    replacement exactly when the string form of the cell, trimmed of
    leading and trailing white space and lower-cased, equals the
    lower-cased token; every other cell and every other column is left as
    it is, and no column is added for a listed name that the table does
    not have.  With the token "Trace": "Trace", " trace " and "TRACE" are
    replaced, "Trace amount" is not. *)
Theorem handle_trace_values_exact (df : frame) (cols : list string)
    (trace_token : string) (replacement : Q) :
  (NoDup (columns df) ->
   DataProcessor.handle_trace_values df cols trace_token replacement
   = map (fun nv : column =>
            if existsb (fun c => String.eqb c (fst nv)) cols
            then (fst nv,
                  map (fun c =>
                         if String.eqb
                              (Text.lower (Text.strip (DataProcessor.astype_str c)))
                              (Text.lower trace_token)
                         then CNum replacement else c)
                      (snd nv))
            else nv)
         df)
  /\ columns (DataProcessor.handle_trace_values df cols trace_token replacement)
     = columns df
  /\ DataProcessor.handle_trace_values
       [("Precip", [CStr "Trace"; CStr " trace "; CStr "TRACE"; CStr "Trace amount"])]
       ["Precip"; "Snow"] "Trace" replacement
     = [("Precip", [CNum replacement; CNum replacement; CNum replacement;
                    CStr "Trace amount"])].
Proof.
  split; [| split].
  - intros ND. now rewrite handle_trace_values_on_columns.
  - apply columns_handle_trace_values.
  - reflexivity.
Qed.

End TraceValues.

Lemma handle_trace_values_exact_witness :
  NoDup (columns [("Temp", [CStr "1.5"; CStr "trace"]); ("Precip", [CStr " TRACE"; CStr "0.2"])])
  /\ DataProcessor.handle_trace_values (pd := Sample.pandas)
       [("Temp", [CStr "1.5"; CStr "trace"]); ("Precip", [CStr " TRACE"; CStr "0.2"])]
       ["Precip"; "Wind"] "Trace" 0%Q
     = [("Temp", [CStr "1.5"; CStr "trace"]); ("Precip", [CNum 0%Q; CStr "0.2"])].
Proof.
  assert (ND : NoDup (columns [("Temp", [CStr "1.5"; CStr "trace"]);
                               ("Precip", [CStr " TRACE"; CStr "0.2"])])).
  { simpl. repeat constructor; simpl; intuition discriminate. }
  split; [exact ND |].
  rewrite (proj1 (handle_trace_values_exact (pd := Sample.pandas) _ _ _ _) ND).
  reflexivity.
Defined.

(** ** visualizer.py *)

Lemma sqrt_bounds n :
  0 <= n -> 0 <= Z.sqrt n /\ Z.sqrt n * Z.sqrt n <= n < (Z.sqrt n + 1) * (Z.sqrt n + 1).
Proof.
  intros Hn. split; [apply Z.sqrt_nonneg |].
  pose proof (Z.sqrt_spec n Hn) as H. unfold Z.succ in H. exact H.
Qed.

(** [round_sqrt n] is the integer nearest to the square root of [n]:
    [round_sqrt n - 1/2 < sqrt n < round_sqrt n + 1/2]. *)
Lemma round_sqrt_nearest n :
  1 <= n ->
  (2 * round_sqrt n - 1) * (2 * round_sqrt n - 1) < 4 * n
  /\ 4 * n < (2 * round_sqrt n + 1) * (2 * round_sqrt n + 1).
Proof.
  intros Hn. unfold round_sqrt.
  destruct (sqrt_bounds n ltac:(lia)) as (Hr & Hlo & Hhi).
  cbv zeta. destruct (Z.ltb_spec (Z.sqrt n) (n - Z.sqrt n * Z.sqrt n)); nia.
Qed.

Lemma auto_bins_clamped n : 0 <= n -> clamped_floor_sqrt n (Visualizer.auto_bins 0 n).
Proof.
  intros Hn. unfold clamped_floor_sqrt, Visualizer.auto_bins. simpl.
  destruct (sqrt_bounds n Hn) as (Hr & Hlo & Hhi).
  assert (n < 100 -> Z.sqrt n < 10) by (intros; nia).
  assert (2500 <= n -> 50 <= Z.sqrt n) by (intros; nia).
  assert (100 <= n -> 10 <= Z.sqrt n) by (intros; nia).
  assert (n < 2500 -> Z.sqrt n < 50) by (intros; nia).
  repeat split; intros; try lia;
    replace (Z.max 10 (Z.min 50 (Z.sqrt n))) with (Z.sqrt n) by lia; lia.
Qed.

Section VisualizerFacts.
Context {pd : Pandas}.

Lemma histograms_body_figure df outdir bins suffix st col :
  Visualizer.histograms_body df outdir bins suffix st col
  = Ok ((fst st ++ map Visualizer.file (hist_figure df outdir bins suffix col))%list,
        (snd st ++ hist_figure df outdir bins suffix col)%list).
Proof.
  unfold Visualizer.histograms_body, hist_figure, getitem.
  destruct (col_in col df) eqn:Hc; simpl.
  - destruct (col_in_get_col _ _ Hc) as [v Hv]. rewrite Hv. simpl.
    destruct (nums (DataProcessor.pd_to_numeric v)) as [| x xs]; simpl.
    + rewrite !app_nil_r. now destruct st.
    + reflexivity.
  - rewrite (col_in_false_get_col _ _ Hc). simpl. rewrite !app_nil_r. now destruct st.
Qed.

Lemma histograms_figures df value_cols outdir bins suffix :
  Visualizer.histograms df value_cols outdir bins suffix
  = Ok (map Visualizer.file (flat_map (hist_figure df outdir bins suffix) value_cols),
        flat_map (hist_figure df outdir bins suffix) value_cols).
Proof.
  unfold Visualizer.histograms.
  assert (G : forall cols st,
    for_each (Visualizer.histograms_body df outdir bins suffix) cols st
    = Ok ((fst st ++ map Visualizer.file
                       (flat_map (hist_figure df outdir bins suffix) cols))%list,
          (snd st ++ flat_map (hist_figure df outdir bins suffix) cols)%list)).
  { induction cols as [| c cols IH]; intros st; simpl.
    - rewrite !app_nil_r. now destruct st.
    - rewrite histograms_body_figure. simpl. rewrite IH. simpl.
      now rewrite map_app, <- !app_assoc. }
  apply (G value_cols ([], [])).
Qed.

Lemma hist_figure_present df outdir bins suffix col v :
  get_col col df = Some v ->
  nums (DataProcessor.pd_to_numeric v) <> [] ->
  exists fig,
    hist_figure df outdir bins suffix col = [fig]
    /\ Visualizer.xlabel fig = col
    /\ Visualizer.hist_bins fig
       = Some (Visualizer.auto_bins bins
                 (Z.of_nat (List.length (nums (DataProcessor.pd_to_numeric v))))).
Proof.
  intros Hv Hn. unfold hist_figure. rewrite Hv.
  destruct (nums (DataProcessor.pd_to_numeric v)) as [| x xs]; [congruence |].
  eexists. split; [reflexivity |]. split; reflexivity.
Qed.

(** C2 (amended). For a requested column whose numeric series has N > 0
    values, [histograms] saves a histogram whose bin count is the
    caller's [bins] when [bins] is not 0 and, when [bins] is 0, the
    integer part of the square root of N clamped to [10, 50]: 20 for
    N = 400, 10 for N = 4, 50 for N = 10000. *)
Theorem histograms_bin_count (df : frame) (value_cols : list string)
    (outdir : string) (bins : Z) (suffix col : string) (v : list cell) :
  In col value_cols ->
  get_col col df = Some v ->
  nums (DataProcessor.pd_to_numeric v) <> [] ->
  let n := Z.of_nat (List.length (nums (DataProcessor.pd_to_numeric v))) in
  (exists paths figs fig,
      Visualizer.histograms df value_cols outdir bins suffix = Ok (paths, figs)
      /\ In fig figs
      /\ Visualizer.xlabel fig = col
      /\ Visualizer.hist_bins fig = Some (Visualizer.auto_bins bins n))
  /\ (bins <> 0 -> Visualizer.auto_bins bins n = bins)
  /\ clamped_floor_sqrt n (Visualizer.auto_bins 0 n)
  /\ Visualizer.auto_bins 0 400 = 20
  /\ Visualizer.auto_bins 0 4 = 10
  /\ Visualizer.auto_bins 0 10000 = 50.
Proof.
  intros Hin Hv Hn n. split; [| split; [| split; [| repeat split]]].
  - destruct (hist_figure_present df outdir bins suffix col v Hv Hn) as (fig & Hf & Hx & Hb).
    eexists _, _, fig. split; [apply histograms_figures |].
    split; [| split; assumption].
    apply in_flat_map. exists col. split; [exact Hin |]. rewrite Hf. now left.
  - intros Hb. unfold Visualizer.auto_bins.
    destruct (Z.eqb_spec bins 0); [contradiction | reflexivity].
  - apply auto_bins_clamped. unfold n. lia.
Qed.

Lemma timeseries_body_absent df datetime_col outdir suffix st col :
  col_in col df = false ->
  Visualizer.timeseries_body df datetime_col outdir suffix st col = Ok st.
Proof. intros H. unfold Visualizer.timeseries_body. now rewrite H. Qed.

Lemma timeseries_body_no_datetime df datetime_col outdir suffix st col :
  col_in datetime_col df = false ->
  col_in col df = true ->
  Visualizer.timeseries_body df datetime_col outdir suffix st col
  = Raise (KeyError datetime_col).
Proof.
  intros Hd Hc. unfold Visualizer.timeseries_body, getitem. rewrite Hc. simpl.
  now rewrite (col_in_false_get_col _ _ Hd).
Qed.

(** C10. [timeseries] skips the requested value columns that the table
    does not have, and only those: when the table lacks the datetime
    column and has at least one requested value column, the call raises
    the KeyError of the lookup of the datetime column; it returns the
    empty list of paths only when no requested value column is
    present. *)
Theorem timeseries_missing_datetime_col (df : frame) (datetime_col : string)
    (value_cols : list string) (outdir suffix : string) :
  col_in datetime_col df = false ->
  ((exists c, In c value_cols /\ col_in c df = true) ->
   Visualizer.timeseries df datetime_col value_cols outdir suffix
   = Raise (KeyError datetime_col))
  /\ ((forall c, In c value_cols -> col_in c df = false) ->
      Visualizer.timeseries df datetime_col value_cols outdir suffix = Ok ([], [])).
Proof.
  intros Hd. unfold Visualizer.timeseries. generalize (@nil string, @nil Visualizer.figure).
  intros st. split.
  - intros (c & Hin & Hc). revert st.
    induction value_cols as [| x cols IH]; intros st; [contradiction |]. simpl.
    destruct (col_in x df) eqn:Hx.
    + now rewrite timeseries_body_no_datetime.
    + rewrite timeseries_body_absent by exact Hx. simpl. apply IH.
      destruct Hin as [-> | Hin]; [congruence | exact Hin].
  - revert st. induction value_cols as [| x cols IH]; intros st Habs; [reflexivity |].
    simpl. rewrite timeseries_body_absent by (apply Habs; now left). simpl.
    apply IH. intros c Hc. apply Habs. now right.
Qed.

End VisualizerFacts.

Lemma histograms_bin_count_witness :
  In "Temp" ["Wind"; "Temp"]
  /\ get_col "Temp" [("Temp", [CStr "1.5"; CStr "M"; CNum 2; CMissing])]
     = Some [CStr "1.5"; CStr "M"; CNum 2; CMissing]
  /\ exists paths figs fig,
       Visualizer.histograms (pd := Sample.pandas)
         [("Temp", [CStr "1.5"; CStr "M"; CNum 2; CMissing])] ["Wind"; "Temp"]
         "figures" 0 "_D_mean" = Ok (paths, figs)
       /\ In fig figs
       /\ Visualizer.xlabel fig = "Temp"
       /\ Visualizer.hist_bins fig = Some 10.
Proof.
  split; [simpl; tauto |]. split; [reflexivity |].
  apply (histograms_bin_count (pd := Sample.pandas)
           [("Temp", [CStr "1.5"; CStr "M"; CNum 2; CMissing])] ["Wind"; "Temp"]
           "figures" 0 "_D_mean" "Temp" [CStr "1.5"; CStr "M"; CNum 2; CMissing]).
  - simpl; tauto.
  - reflexivity.
  - discriminate.
Defined.

(** C2, as the specification words it, fails: with 133 values the nearest
    integer to the square root is 12 and the program uses 11 bins. *)
Lemma histograms_round_counterexample :
  map Visualizer.hist_bins
      (figures_of (Visualizer.histograms (pd := Sample.pandas)
                     [("Temp", repeat (CNum 1) 133)] ["Temp"] "figures" 0 ""))
  = [Some 11]
  /\ spec_auto_bins 133 = 12
  /\ map Visualizer.hist_bins
         (figures_of (Visualizer.histograms (pd := Sample.pandas)
                        [("Temp", repeat (CNum 1) 133)] ["Temp"] "figures" 0 ""))
     <> [Some (spec_auto_bins 133)].
Proof.
  split; [vm_compute; reflexivity |]. split; [vm_compute; reflexivity |].
  vm_compute. discriminate.
Qed.

Lemma timeseries_missing_datetime_col_witness :
  col_in "Date/Time" [("Temp", [CNum 1]); ("Wind", [CNum 2])] = false
  /\ (exists c, In c ["Rain"; "Temp"]
               /\ col_in c [("Temp", [CNum 1]); ("Wind", [CNum 2])] = true)
  /\ Visualizer.timeseries
       [("Temp", [CNum 1]); ("Wind", [CNum 2])] "Date/Time" ["Rain"; "Temp"] "figures" ""
     = Raise (KeyError "Date/Time").
Proof.
  assert (E : exists c, In c ["Rain"; "Temp"]
                        /\ col_in c [("Temp", [CNum 1]); ("Wind", [CNum 2])] = true).
  { exists "Temp". split; [simpl; tauto | reflexivity]. }
  split; [reflexivity |]. split; [exact E |].
  exact (proj1 (timeseries_missing_datetime_col
                  [("Temp", [CNum 1]); ("Wind", [CNum 2])] "Date/Time" ["Rain"; "Temp"]
                  "figures" "" eq_refl) E).
Defined.

(** ** summary.py *)

Module StatsFacts.

Local Open Scope Q_scope.

Lemma qlen_nonzero (x : Q) xs : ~ Stats.qlen (x :: xs) == 0.
Proof. unfold Stats.qlen, Qeq. simpl. lia. Qed.

Lemma qmean_sum x xs :
  Stats.qlen (x :: xs) * Stats.qmean (x :: xs) == Stats.qsum (x :: xs).
Proof. unfold Stats.qmean. apply Qmult_div_r. apply qlen_nonzero. Qed.

Lemma qvar_population x xs :
  Stats.qlen (x :: xs) * Stats.qvar 0 (x :: xs)
  == Stats.qsum (map (fun y => (y - Stats.qmean (x :: xs)) * (y - Stats.qmean (x :: xs)))
                     (x :: xs)).
Proof.
  unfold Stats.qvar. cbv zeta. rewrite Z.sub_0_r.
  apply Qmult_div_r. apply qlen_nonzero.
Qed.

Lemma fold_min_le xs x : fold_left Qmin xs x <= x.
Proof.
  revert x. induction xs as [| a xs IH]; intros x; simpl; [apply Qle_refl |].
  eapply Qle_trans; [apply IH | apply Q.le_min_l].
Qed.

Lemma qmin_le x xs y : In y (x :: xs) -> Stats.qmin x xs <= y.
Proof.
  unfold Stats.qmin. revert x. induction xs as [| a xs IH]; intros x Hin; simpl.
  - destruct Hin as [-> | []]. apply Qle_refl.
  - destruct Hin as [-> | [-> | Hin]].
    + eapply Qle_trans; [apply fold_min_le | apply Q.le_min_l].
    + eapply Qle_trans; [apply fold_min_le | apply Q.le_min_r].
    + apply IH. now right.
Qed.

Lemma qmin_In x xs : In (Stats.qmin x xs) (x :: xs).
Proof.
  unfold Stats.qmin. revert x. induction xs as [| a xs IH]; intros x; simpl.
  - now left.
  - destruct (IH (Qmin x a)) as [E | Hin]; [| now right; right].
    rewrite <- E. unfold Qmin, GenericMinMax.gmin.
    destruct (x ?= a); [now left | now left | now right; left].
Qed.

Lemma fold_max_ge xs x : x <= fold_left Qmax xs x.
Proof.
  revert x. induction xs as [| a xs IH]; intros x; simpl; [apply Qle_refl |].
  eapply Qle_trans; [apply Q.le_max_l | apply IH].
Qed.

Lemma qmax_ge x xs y : In y (x :: xs) -> y <= Stats.qmax x xs.
Proof.
  unfold Stats.qmax. revert x. induction xs as [| a xs IH]; intros x Hin; simpl.
  - destruct Hin as [-> | []]. apply Qle_refl.
  - destruct Hin as [-> | [-> | Hin]].
    + eapply Qle_trans; [apply Q.le_max_l | apply fold_max_ge].
    + eapply Qle_trans; [apply Q.le_max_r | apply fold_max_ge].
    + apply IH. now right.
Qed.

Lemma qmax_In x xs : In (Stats.qmax x xs) (x :: xs).
Proof.
  unfold Stats.qmax. revert x. induction xs as [| a xs IH]; intros x; simpl.
  - now left.
  - destruct (IH (Qmax x a)) as [E | Hin]; [| now right; right].
    rewrite <- E. unfold Qmax, GenericMinMax.gmax.
    destruct (x ?= a); [now left | now right; left | now left].
Qed.

End StatsFacts.

Section SummarizerFacts.
Context {pd : Pandas}.

(** C7. For every table and every requested column that has at least one
    numeric value once coerced, the summary has a row for the column
    whose count is the number of non-missing numeric values, whose mean
    is their sum over the count, whose standard deviation is the square
    root of the sum of their squared deviations from the mean over the
    count (divisor N, not N - 1), and whose min and max are their least
    and greatest: all over the non-missing numeric values only.  The
    values 1.0, 2.0, 3.0 give count 3, mean 2, std sqrt(2/3), min 1,
    max 3. *)
Theorem summary_row_statistics (df : frame) (cols : list string) (col : string)
    (v : list cell) (x : Q) (xs : list Q) :
  In col cols ->
  get_col col df = Some v ->
  nums (DataProcessor.pd_to_numeric v) = x :: xs ->
  (exists r,
      In r (Summarizer.table df cols)
      /\ Summarizer.column r = col
      /\ Summarizer.count r = Z.of_nat (List.length (x :: xs))
      /\ (inject_Z (Summarizer.count r) * Summarizer.mean r == Stats.qsum (x :: xs))%Q
      /\ (inject_Z (Summarizer.count r) * Summarizer.variance r
          == Stats.qsum (map (fun y => (y - Summarizer.mean r) * (y - Summarizer.mean r))
                             (x :: xs)))%Q
      /\ Summarizer.std r = sqrt (Q2R (Summarizer.variance r))
      /\ In (Summarizer.min r) (x :: xs)
      /\ (forall y, In y (x :: xs) -> (Summarizer.min r <= y)%Q)
      /\ In (Summarizer.max r) (x :: xs)
      /\ (forall y, In y (x :: xs) -> (y <= Summarizer.max r)%Q))
  /\ (exists r,
        Summarizer.table [("x", [CNum 1; CNum 2; CNum 3])] ["x"] = [r]
        /\ Summarizer.count r = 3
        /\ (Summarizer.mean r == 2)%Q
        /\ Summarizer.std r = sqrt (2 / 3)%R
        /\ (Summarizer.min r == 1)%Q
        /\ (Summarizer.max r == 3)%Q).
Proof.
  intros Hin Hv Hn. split.
  - eexists. split.
    + unfold Summarizer.table. apply in_flat_map. exists col. split; [exact Hin |].
      assert (Hc : col_in col df = true).
      { apply col_in_In. unfold columns. apply get_col_In in Hv.
        change col with (fst (col, v)). now apply in_map. }
      rewrite Hc, Hv, Hn. simpl. left. reflexivity.
    + simpl. repeat split.
      * apply StatsFacts.qmean_sum.
      * apply StatsFacts.qvar_population.
      * apply StatsFacts.qmin_In.
      * intros y Hy. now apply StatsFacts.qmin_le.
      * apply StatsFacts.qmax_In.
      * intros y Hy. now apply StatsFacts.qmax_ge.
  - eexists. split; [reflexivity |]. simpl. repeat split; try reflexivity.
    unfold Summarizer.std. simpl. f_equal.
    rewrite (Qeq_eqR _ (2 # 3)) by reflexivity.
    unfold Q2R. simpl. lra.
Qed.

End SummarizerFacts.

Lemma summary_row_statistics_witness :
  In "Temp" ["Wind"; "Temp"]
  /\ get_col "Temp" [("Temp", [CStr "1.5"; CStr "M"; CNum 2; CMissing])]
     = Some [CStr "1.5"; CStr "M"; CNum 2; CMissing]
  /\ nums (DataProcessor.pd_to_numeric (pd := Sample.pandas)
             [CStr "1.5"; CStr "M"; CNum 2; CMissing])
     = [(15 # 10)%Q; 2%Q]
  /\ exists r,
       In r (Summarizer.table (pd := Sample.pandas)
               [("Temp", [CStr "1.5"; CStr "M"; CNum 2; CMissing])] ["Wind"; "Temp"])
       /\ Summarizer.column r = "Temp"
       /\ Summarizer.count r = 2.
Proof.
  split; [simpl; tauto |]. split; [reflexivity |]. split; [reflexivity |].
  destruct (proj1 (summary_row_statistics (pd := Sample.pandas)
                     [("Temp", [CStr "1.5"; CStr "M"; CNum 2; CMissing])]
                     ["Wind"; "Temp"] "Temp" [CStr "1.5"; CStr "M"; CNum 2; CMissing]
                     (15 # 10)%Q [2%Q]
                     (or_intror (or_introl eq_refl)) eq_refl eq_refl))
    as (r & Hr & Hc & Hn & _).
  exists r. repeat split; assumption.
Defined.

(** ** processor.py: the date filter *)

Lemma select_nil_r {A : Type} (mask : list bool) : select mask (@nil A) = [].
Proof. now destruct mask as [| [] mask]. Qed.

Lemma select_all_false {A B : Type} (v : list B) (w : list A) :
  select (map (fun _ => false) v) w = [].
Proof.
  revert w. induction v as [| c v IH]; intros w; simpl; [reflexivity |].
  destruct w; [reflexivity | apply IH].
Qed.

(** Selecting twice is selecting once with both masks. *)
Lemma select_select {A : Type} (f g : cell -> bool) (v : list cell) (w : list A) :
  select (map g (select (map f v) v)) (select (map f v) w)
  = select (map (fun c => f c && g c) v) w.
Proof.
  revert w. induction v as [| c v IH]; intros w; simpl; [reflexivity |].
  destruct w as [| x w].
  - destruct (f c); simpl; [| apply select_nil_r].
    destruct (g c); reflexivity.
  - destruct (f c); simpl; [| apply IH].
    destruct (g c); [f_equal |]; apply IH.
Qed.

Lemma columns_take_rows mask df : columns (take_rows mask df) = columns df.
Proof. unfold columns, take_rows. rewrite map_map. now apply map_ext. Qed.

Lemma get_col_take_rows c mask df v :
  get_col c df = Some v -> get_col c (take_rows mask df) = Some (select mask v).
Proof.
  induction df as [| [n w] df IH]; simpl; [discriminate |].
  destruct (String.eqb c n); [now intros [= ->] | exact IH].
Qed.

Lemma take_rows_all_false (v : list cell) df :
  take_rows (map (fun _ => false) v) df = no_rows df.
Proof.
  unfold take_rows, no_rows. apply map_ext. intros [n w]; simpl.
  now rewrite select_all_false.
Qed.

Lemma no_rows_take_rows mask df : no_rows (take_rows mask df) = no_rows df.
Proof. unfold no_rows, take_rows. rewrite map_map. now apply map_ext. Qed.

Lemma take_rows_take_rows (f g : cell -> bool) (v : list cell) df :
  take_rows (map g (select (map f v) v)) (take_rows (map f v) df)
  = take_rows (map (fun c => f c && g c) v) df.
Proof.
  unfold take_rows. rewrite map_map. apply map_ext. intros [n w]; simpl.
  now rewrite select_select.
Qed.

Lemma datetime_dtype_select mask v :
  datetime_dtype v = true -> datetime_dtype (select mask v) = true.
Proof.
  unfold datetime_dtype. revert mask. induction v as [| c v IH]; intros mask H.
  - now rewrite select_nil_r.
  - simpl in H. apply andb_true_iff in H as [Hc Hv].
    destruct mask as [| [] mask]; simpl; [reflexivity | | now apply IH].
    rewrite Hc. now apply IH.
Qed.

Section DateFilter.
Context {pd : Pandas}.

(** On a column of datetime dtype the comparison with a bound does not
    raise. *)
Lemma compare_column op bound v :
  datetime_dtype v = true ->
  mapM (DataProcessor.compare_cell op bound) v = Ok (map (cmp_bound op bound) v).
Proof.
  unfold datetime_dtype. induction v as [| c v IH]; simpl; [reflexivity |].
  intros H. apply andb_true_iff in H as [Hc Hv]. rewrite (IH Hv).
  destruct bound as [b |]; destruct c; simpl; try discriminate; reflexivity.
Qed.

Lemma keep_where_datetime op datetime_col bound df v :
  get_col datetime_col df = Some v ->
  datetime_dtype v = true ->
  DataProcessor.keep_where op datetime_col bound df
  = Ok (take_rows (map (cmp_bound op (datetime_of_string bound)) v) df).
Proof.
  intros Hv Hd. unfold DataProcessor.keep_where, getitem. rewrite Hv. simpl.
  now rewrite compare_column.
Qed.

Lemma get_col_col_in c df v : get_col c df = Some v -> col_in c df = true.
Proof.
  intros H. apply col_in_In. apply get_col_In in H. unfold columns.
  change c with (fst (c, v)). now apply in_map.
Qed.

Lemma truthy_nonempty s : s <> "" -> Text.truthy s = true.
Proof. destruct s; [congruence | reflexivity]. Qed.

Lemma cmp_bound_NaT op v :
  map (cmp_bound op None) v = map (fun _ => false) v.
Proof. reflexivity. Qed.

(** The first half of the filter: the start bound, when it is given,
    leaves a selection of the rows, whose datetime column is still of
    datetime dtype. *)
Lemma start_stage datetime_col start df v :
  get_col datetime_col df = Some v ->
  datetime_dtype v = true ->
  exists df1 v1,
    match start with
    | Some s => if Text.truthy s
                then DataProcessor.keep_where Z.geb datetime_col s df else Ok df
    | None => Ok df
    end = Ok df1
    /\ get_col datetime_col df1 = Some v1
    /\ datetime_dtype v1 = true
    /\ no_rows df1 = no_rows df.
Proof.
  intros Hv Hd.
  assert (Same : exists df1 v1, Ok df = Ok df1 /\ get_col datetime_col df1 = Some v1
                                /\ datetime_dtype v1 = true /\ no_rows df1 = no_rows df)
    by (exists df, v; auto).
  destruct start as [s |]; [| exact Same].
  destruct (Text.truthy s); [| exact Same].
  rewrite (keep_where_datetime _ _ _ _ _ Hv Hd).
  eexists _, _. split; [reflexivity |].
  split; [apply get_col_take_rows; exact Hv |].
  split; [apply datetime_dtype_select; exact Hd | apply no_rows_take_rows].
Qed.

(** C1 (amended). For every table with a parsed datetime column, a start
    or end bound that is given, is not the empty string and fails to
    parse is coerced to NaT; no row compares true against NaT, so
    [filter_date_range] returns the table with all its columns and none
    of its rows, whatever the other bound is; the call does not raise. *)
Theorem filter_date_range_unparsable_bound (df : frame) (datetime_col : string)
    (v : list cell) (start end_ : option string) :
  get_col datetime_col df = Some v ->
  datetime_dtype v = true ->
  unparsable start \/ unparsable end_ ->
  DataProcessor.filter_date_range df datetime_col start end_ = Ok (no_rows df).
Proof.
  intros Hv Hd Hbad. unfold DataProcessor.filter_date_range.
  rewrite (get_col_col_in _ _ _ Hv). simpl.
  destruct Hbad as [(s & -> & Hs & Hp) | (e & -> & He & Hp)].
  - rewrite (truthy_nonempty _ Hs), (keep_where_datetime _ _ _ _ _ Hv Hd), Hp.
    rewrite cmp_bound_NaT, take_rows_all_false. simpl.
    assert (Hv0 : get_col datetime_col (no_rows df) = Some []).
    { rewrite <- (take_rows_all_false v).
      rewrite (get_col_take_rows _ _ _ _ Hv). now rewrite select_all_false. }
    destruct end_ as [e |]; [| reflexivity].
    destruct (Text.truthy e); [| reflexivity].
    rewrite (keep_where_datetime _ _ _ _ _ Hv0 eq_refl). simpl.
    f_equal. unfold take_rows, no_rows. rewrite map_map. now apply map_ext.
  - destruct (start_stage datetime_col start df v Hv Hd) as (df1 & v1 & E & Hv1 & Hd1 & Hn).
    rewrite E. simpl.
    rewrite (truthy_nonempty _ He), (keep_where_datetime _ _ _ _ _ Hv1 Hd1), Hp.
    now rewrite cmp_bound_NaT, take_rows_all_false, Hn.
Qed.

(** C5. For every table with a parsed datetime column and parseable start
    and end bounds, [filter_date_range] is inclusive at both bounds: it
    keeps exactly the rows whose timestamp t satisfies start <= t <= end,
    both comparisons non-strict, so that a row whose timestamp equals
    start or equals end is kept (the range from start to end being a
    range: start <= end). *)
Theorem filter_date_range_inclusive (df : frame) (datetime_col : string)
    (v : list cell) (s e : string) (a b : Z) :
  get_col datetime_col df = Some v ->
  datetime_dtype v = true ->
  s <> "" -> e <> "" ->
  datetime_of_string s = Some a ->
  datetime_of_string e = Some b ->
  DataProcessor.filter_date_range df datetime_col (Some s) (Some e)
  = Ok (take_rows (map (between a b) v) df)
  /\ (forall t, between a b (CTime t) = true <-> a <= t <= b)
  /\ (a <= b -> between a b (CTime a) = true /\ between a b (CTime b) = true).
Proof.
  intros Hv Hd Hs He Ha Hb. split; [| split].
  - unfold DataProcessor.filter_date_range.
    rewrite (get_col_col_in _ _ _ Hv). simpl.
    rewrite (truthy_nonempty _ Hs), (keep_where_datetime _ _ _ _ _ Hv Hd), Ha. simpl.
    rewrite (truthy_nonempty _ He).
    rewrite (keep_where_datetime _ _ _ _ (select (map (cmp_bound Z.geb (Some a)) v) v)).
    + rewrite Hb, take_rows_take_rows. do 2 f_equal. apply map_ext.
      intros [x | q | t |]; simpl; try reflexivity.
      now rewrite Z.geb_leb.
    + now apply get_col_take_rows.
    + now apply datetime_dtype_select.
  - intros t. simpl. rewrite andb_true_iff, !Z.leb_le. tauto.
  - intros Hab. simpl. rewrite !Z.leb_refl. simpl.
    split; [| rewrite andb_true_r]; now apply Z.leb_le.
Qed.

End DateFilter.

Lemma filter_date_range_unparsable_bound_witness :
  get_col "Date/Time"
    [("Date/Time", [CTime (Sample.day 2025 1 1); CTime (Sample.day 2025 1 2)]);
     ("Temp", [CNum 1; CNum 2])]
  = Some [CTime (Sample.day 2025 1 1); CTime (Sample.day 2025 1 2)]
  /\ datetime_dtype [CTime (Sample.day 2025 1 1); CTime (Sample.day 2025 1 2)] = true
  /\ unparsable (pd := Sample.pandas) (Some "not-a-date")
  /\ DataProcessor.filter_date_range (pd := Sample.pandas)
       [("Date/Time", [CTime (Sample.day 2025 1 1); CTime (Sample.day 2025 1 2)]);
        ("Temp", [CNum 1; CNum 2])]
       "Date/Time" (Some "not-a-date") (Some "2025-01-31")
     = Ok [("Date/Time", []); ("Temp", [])].
Proof.
  assert (U : unparsable (pd := Sample.pandas) (Some "not-a-date")).
  { exists "not-a-date". split; [reflexivity |]. split; [discriminate | reflexivity]. }
  split; [reflexivity |]. split; [reflexivity |]. split; [exact U |].
  exact (filter_date_range_unparsable_bound (pd := Sample.pandas)
           [("Date/Time", [CTime (Sample.day 2025 1 1); CTime (Sample.day 2025 1 2)]);
            ("Temp", [CNum 1; CNum 2])]
           "Date/Time" [CTime (Sample.day 2025 1 1); CTime (Sample.day 2025 1 2)]
           (Some "not-a-date") (Some "2025-01-31") eq_refl eq_refl (or_introl U)).
Defined.

(** C1, as the specification words it, fails: with a start bound that does
    not parse and no end bound, the specification keeps every row and the
    program keeps none. *)
Lemma filter_date_range_unparsable_counterexample :
  datetime_of_string (Pandas := Sample.pandas) "not-a-date" = None
  /\ spec_filter_date_range (pd := Sample.pandas)
       [("Date/Time", [CTime (Sample.day 2025 1 1); CTime (Sample.day 2025 1 2)]);
        ("Temp", [CNum 1; CNum 2])]
       "Date/Time" (Some "not-a-date") None
     = [("Date/Time", [CTime (Sample.day 2025 1 1); CTime (Sample.day 2025 1 2)]);
        ("Temp", [CNum 1; CNum 2])]
  /\ DataProcessor.filter_date_range (pd := Sample.pandas)
       [("Date/Time", [CTime (Sample.day 2025 1 1); CTime (Sample.day 2025 1 2)]);
        ("Temp", [CNum 1; CNum 2])]
       "Date/Time" (Some "not-a-date") None
     = Ok [("Date/Time", []); ("Temp", [])]
  /\ DataProcessor.filter_date_range (pd := Sample.pandas)
       [("Date/Time", [CTime (Sample.day 2025 1 1); CTime (Sample.day 2025 1 2)]);
        ("Temp", [CNum 1; CNum 2])]
       "Date/Time" (Some "not-a-date") None
     <> Ok (spec_filter_date_range (pd := Sample.pandas)
              [("Date/Time", [CTime (Sample.day 2025 1 1); CTime (Sample.day 2025 1 2)]);
               ("Temp", [CNum 1; CNum 2])]
              "Date/Time" (Some "not-a-date") None).
Proof.
  split; [reflexivity |]. split; [reflexivity |]. split; [reflexivity |].
  vm_compute. discriminate.
Qed.

Lemma filter_date_range_inclusive_witness :
  get_col "Date/Time"
    [("Date/Time", [CTime (Sample.day 2024 12 31); CTime (Sample.day 2025 1 1);
                    CTime (Sample.day 2025 1 15); CTime (Sample.day 2025 1 31);
                    CTime (Sample.day 2025 2 1)]);
     ("Temp", [CNum 1; CNum 2; CNum 3; CNum 4; CNum 5])]
  = Some [CTime (Sample.day 2024 12 31); CTime (Sample.day 2025 1 1);
          CTime (Sample.day 2025 1 15); CTime (Sample.day 2025 1 31);
          CTime (Sample.day 2025 2 1)]
  /\ datetime_of_string (Pandas := Sample.pandas) "2025-01-01" = Some (Sample.day 2025 1 1)
  /\ datetime_of_string (Pandas := Sample.pandas) "2025-01-31" = Some (Sample.day 2025 1 31)
  /\ DataProcessor.filter_date_range (pd := Sample.pandas)
       [("Date/Time", [CTime (Sample.day 2024 12 31); CTime (Sample.day 2025 1 1);
                       CTime (Sample.day 2025 1 15); CTime (Sample.day 2025 1 31);
                       CTime (Sample.day 2025 2 1)]);
        ("Temp", [CNum 1; CNum 2; CNum 3; CNum 4; CNum 5])]
       "Date/Time" (Some "2025-01-01") (Some "2025-01-31")
     = Ok [("Date/Time", [CTime (Sample.day 2025 1 1); CTime (Sample.day 2025 1 15);
                          CTime (Sample.day 2025 1 31)]);
           ("Temp", [CNum 2; CNum 3; CNum 4])].
Proof.
  split; [reflexivity |]. split; [reflexivity |]. split; [reflexivity |].
  rewrite (proj1 (filter_date_range_inclusive (pd := Sample.pandas)
                    [("Date/Time", [CTime (Sample.day 2024 12 31); CTime (Sample.day 2025 1 1);
                                    CTime (Sample.day 2025 1 15); CTime (Sample.day 2025 1 31);
                                    CTime (Sample.day 2025 2 1)]);
                     ("Temp", [CNum 1; CNum 2; CNum 3; CNum 4; CNum 5])]
                    "Date/Time"
                    [CTime (Sample.day 2024 12 31); CTime (Sample.day 2025 1 1);
                     CTime (Sample.day 2025 1 15); CTime (Sample.day 2025 1 31);
                     CTime (Sample.day 2025 2 1)]
                    "2025-01-01" "2025-01-31" (Sample.day 2025 1 1) (Sample.day 2025 1 31)
                    eq_refl eq_refl ltac:(discriminate) ltac:(discriminate)
                    eq_refl eq_refl)).
  reflexivity.
Defined.

(** ** processor.py: resampling *)

Lemma mapM_ok {A B : Type} (f : A -> result B) (g : A -> B) l :
  (forall x, In x l -> f x = Ok (g x)) -> mapM f l = Ok (map g l).
Proof.
  induction l as [| x l IH]; intros H; simpl; [reflexivity |].
  rewrite (H x (or_introl eq_refl)). simpl.
  rewrite IH by (intros y Hy; apply H; now right). reflexivity.
Qed.

Lemma mapM_Forall2 {A B : Type} (f : A -> result B) l out :
  mapM f l = Ok out -> Forall2 (fun x y => f x = Ok y) l out.
Proof.
  revert out. induction l as [| x l IH]; intros out; simpl.
  - intros [= <-]. constructor.
  - destruct (f x) as [y | e] eqn:Hx; simpl; [| discriminate].
    destruct (mapM f l) as [ys | e]; simpl; [| discriminate].
    intros [= <-]. constructor; [exact Hx | now apply IH].
Qed.

Lemma get_col_drop_other c d df :
  c <> d ->
  get_col c (filter (fun nv : column => negb (String.eqb d (fst nv))) df) = get_col c df.
Proof.
  intros Hcd. induction df as [| [n v] df IH]; simpl; [reflexivity |].
  destruct (String.eqb d n) eqn:Hd; simpl.
  - apply String.eqb_eq in Hd. subst n.
    destruct (String.eqb_spec c d); [contradiction | exact IH].
  - destruct (String.eqb c n); [reflexivity | exact IH].
Qed.

Lemma get_col_dropped d df :
  get_col d (filter (fun nv : column => negb (String.eqb d (fst nv))) df) = None.
Proof.
  induction df as [| [n v] df IH]; simpl; [reflexivity |].
  destruct (String.eqb d n) eqn:Hd; simpl; [exact IH | now rewrite Hd].
Qed.

Lemma select_nth {A : Type} (mask : list bool) (l : list A) i :
  (i < List.length (select mask l))%nat ->
  exists j, nth j mask false = true
            /\ forall (B : Type) (w : list B) (e : B), nth i (select mask w) e = nth j w e.
Proof.
  revert l i. induction mask as [| b mask IH]; intros l i Hi.
  - simpl in Hi. lia.
  - destruct l as [| x l]; [simpl in Hi; lia |].
    destruct b; simpl in Hi.
    + destruct i as [| i].
      * exists 0%nat. split; [reflexivity |]. intros B [| y w] e; reflexivity.
      * destruct (IH l i ltac:(lia)) as (j & Hj & Hw). exists (S j). split; [exact Hj |].
        intros B [| y w] e; simpl; [reflexivity | apply Hw].
    + destruct (IH l i Hi) as (j & Hj & Hw). exists (S j). split; [exact Hj |].
      intros B [| y w] e; simpl; [now destruct i | apply Hw].
Qed.

Lemma nth_map_seq (f : nat -> bool) n j :
  nth j (map f (seq 0 n)) false = true -> (j < n)%nat /\ f j = true.
Proof.
  intros H. destruct (Nat.lt_ge_cases j n) as [Hlt | Hge].
  - split; [exact Hlt |].
    rewrite (nth_indep _ false (f 0%nat)) in H by now rewrite length_map, length_seq.
    rewrite map_nth, seq_nth in H by exact Hlt. exact H.
  - rewrite nth_overflow in H by now rewrite length_map, length_seq. discriminate.
Qed.

Lemma nth_map_default {A B : Type} (f : A -> B) l j d e :
  (j < List.length l)%nat -> nth j (map f l) e = f (nth j l d).
Proof.
  intros H. rewrite (nth_indep _ e (f d)) by now rewrite length_map. apply map_nth.
Qed.

Lemma map_snd_combine {A B : Type} (l : list A) (l' : list B) :
  List.length l = List.length l' -> map snd (combine l l') = l'.
Proof.
  revert l'. induction l as [| x l IH]; intros [| y l'] H; simpl in *; try discriminate;
    [reflexivity |]. f_equal. apply IH. lia.
Qed.

Lemma Forall2_In_r {A B : Type} (R : A -> B -> Prop) l l' y :
  Forall2 R l l' -> In y l' -> exists x, In x l /\ R x y.
Proof.
  induction 1 as [| a b l l' Hab _ IH]; intros Hin; [contradiction |].
  destruct Hin as [-> | Hin]; [exists a; split; [now left | exact Hab] |].
  destruct (IH Hin) as (x & Hx & Hr). exists x. split; [now right | exact Hr].
Qed.

Lemma Forall2_length_eq {A B : Type} (R : A -> B -> Prop) l l' :
  Forall2 R l l' -> List.length l = List.length l'.
Proof. induction 1; simpl; congruence. Qed.

Lemma times_of_map_CTime l :
  flat_map (fun c => match c with CTime t => [t] | _ => [] end) (map CTime l) = l.
Proof. induction l as [| t l IH]; simpl; [reflexivity | now rewrite IH]. Qed.

Lemma forallb_false_intro {A : Type} (f : A -> bool) l x :
  In x l -> f x = false -> forallb f l = false.
Proof.
  intros Hin Hx. destruct (forallb f l) eqn:E; [| reflexivity].
  rewrite forallb_forall in E. rewrite (E x Hin) in Hx. discriminate.
Qed.

Lemma nums_not_all_missing v : nums v <> [] -> all_missing v = false.
Proof.
  induction v as [| c v IH]; simpl; [congruence |].
  destruct c; simpl; try reflexivity. exact IH.
Qed.

Section Resample.
Context {pd : Pandas}.

Lemma index_times_ok v :
  forallb is_time v = true ->
  exists times, DataProcessor.index_times v = Ok times /\ v = map CTime times.
Proof.
  unfold DataProcessor.index_times. induction v as [| c v IH]; simpl.
  - intros _. now exists [].
  - intros H. apply andb_true_iff in H as [Hc Hv].
    destruct c as [| | t |]; try discriminate.
    destruct (IH Hv) as (times & E & ->). rewrite E. simpl.
    now exists (t :: times).
Qed.

Lemma reduction_of_unsupported agg :
  agg <> "mean" -> agg <> "sum" -> agg <> "min" -> agg <> "max" -> agg <> "median" ->
  DataProcessor.reduction_of agg = None.
Proof.
  intros H1 H2 H3 H4 H5. unfold DataProcessor.reduction_of.
  repeat match goal with
         | |- context [String.eqb agg ?k] =>
             destruct (String.eqb_spec agg k); [contradiction |]
         end.
  reflexivity.
Qed.

Lemma guard_true_iff df datetime_col freq cols :
  negb (truthy_opt freq) || negb (col_in datetime_col df)
  || negb (forallb (fun c => col_in c df) cols) = true
  <-> (truthy_opt freq = false
       \/ col_in datetime_col df = false
       \/ exists c, In c cols /\ col_in c df = false).
Proof.
  rewrite !orb_true_iff, !negb_true_iff. split.
  - intros [[H | H] | H]; [now left | now right; left |].
    right; right. destruct (forallb_forall (fun c => col_in c df) cols) as [_ F].
    destruct (existsb (fun c => negb (col_in c df)) cols) eqn:E.
    + apply existsb_exists in E as (c & Hc & Hn). exists c. split; [exact Hc |].
      now apply negb_true_iff.
    + rewrite F in H; [discriminate |]. intros c Hc.
      destruct (col_in c df) eqn:Hin; [reflexivity |].
      assert (existsb (fun c => negb (col_in c df)) cols = true); [| congruence].
      apply existsb_exists. exists c. split; [exact Hc | now rewrite Hin].
  - intros [H | [H | (c & Hc & Hn)]]; [now left; left | now left; right |].
    right. destruct (forallb (fun c => col_in c df) cols) eqn:E; [| reflexivity].
    rewrite forallb_forall in E. rewrite (E c Hc) in Hn. discriminate.
Qed.

(** C4. [resample] returns none exactly when the frequency is none or
    empty, the table lacks the datetime column, or the table lacks one of
    the requested columns.  With a valid frequency, a datetime column of
    timestamps and requested value columns that the table has, an
    aggregation name outside mean, sum, min, max, median ends the call
    with the SystemExit of the configuration error: no table and no none
    is returned. *)
Theorem resample_none_or_fatal (df : frame) (datetime_col : string)
    (freq : option string) (agg : string) (cols : list string) :
  (DataProcessor.resample df datetime_col freq agg cols = Ok None
   <-> (truthy_opt freq = false
        \/ col_in datetime_col df = false
        \/ exists c, In c cols /\ col_in c df = false))
  /\ (forall f off v,
        freq = Some f -> f <> "" ->
        to_offset f = Some off ->
        get_col datetime_col df = Some v -> forallb is_time v = true ->
        (forall c, In c cols -> col_in c df = true) ->
        ~ In datetime_col cols ->
        agg <> "mean" -> agg <> "sum" -> agg <> "min" -> agg <> "max" ->
        agg <> "median" ->
        DataProcessor.resample df datetime_col freq agg cols
        = Raise (SystemExit ("Unsupported agg: " ++ agg
                             ++ ". Choose from mean,sum,min,max,median."))).
Proof.
  split.
  - rewrite <- guard_true_iff. unfold DataProcessor.resample.
    destruct (negb (truthy_opt freq) || negb (col_in datetime_col df)
              || negb (forallb (fun c => col_in c df) cols)); [tauto |].
    split; [| discriminate]. intros H. exfalso. revert H.
    destruct (getitem datetime_col df); simpl; [| discriminate].
    destruct (mapM _ cols); simpl; [| discriminate].
    destruct (to_offset _); simpl; [| discriminate].
    destruct (DataProcessor.index_times _); simpl; [| discriminate].
    destruct (DataProcessor.reduction_of agg); simpl; [| discriminate].
    destruct (mapM _ _); simpl; discriminate.
  - intros f off v -> Hf Hoff Hv Ht Hcols Hnot H1 H2 H3 H4 H5.
    unfold DataProcessor.resample.
    assert (G : negb (truthy_opt (Some f)) || negb (col_in datetime_col df)
                || negb (forallb (fun c => col_in c df) cols) = false).
    { simpl. rewrite (get_col_col_in _ _ _ Hv).
      destruct f; [congruence |]. simpl.
      apply negb_false_iff. apply forallb_forall. exact Hcols. }
    rewrite G. unfold getitem at 1. rewrite Hv. simpl.
    rewrite (mapM_ok _ (series_of df)).
    + simpl. rewrite Hoff. simpl.
      destruct (index_times_ok v Ht) as (times & -> & _). simpl.
      now rewrite reduction_of_unsupported.
    + intros c Hc. unfold getitem, series_of.
      rewrite get_col_drop_other by (intros ->; contradiction).
      destruct (col_in_get_col _ _ (Hcols c Hc)) as [w ->]. reflexivity.
Qed.

Lemma reduction_of_sum agg :
  DataProcessor.reduction_of agg = Some DataProcessor.Sum -> agg = "sum".
Proof.
  unfold DataProcessor.reduction_of.
  repeat match goal with
         | |- context [String.eqb agg ?k] =>
             destruct (String.eqb_spec agg k); [try discriminate; auto |]
         end.
  discriminate.
Qed.

Lemma reduce_numeric_notna r b :
  r <> DataProcessor.Sum ->
  notna (DataProcessor.reduce_numeric r b) = true ->
  all_missing b = false.
Proof.
  intros Hr H. apply nums_not_all_missing. intros E.
  unfold DataProcessor.reduce_numeric in H. rewrite E in H.
  destruct r; try discriminate. contradiction.
Qed.

(** A reduced column that is not missing at a bucket, for a reduction
    other than the sum, had a value in that bucket. *)
Lemma reduce_column_notna agg r off times labels x v j :
  numeric_dtype x = true \/ object_reductions_skip_missing ->
  agg <> "sum" -> r <> DataProcessor.Sum ->
  DataProcessor.reduce_column agg r off times labels x = Ok v ->
  (j < List.length labels)%nat ->
  notna (nth j v CMissing) = true ->
  all_missing (DataProcessor.bucket off times (nth j labels 0) x) = false.
Proof.
  intros Law Hagg Hr Hv Hj Hn. unfold DataProcessor.reduce_column in Hv.
  destruct (numeric_dtype x).
  - injection Hv as <-. rewrite map_map in Hn.
    rewrite (nth_map_default _ _ _ 0) in Hn by exact Hj.
    now apply (reduce_numeric_notna r).
  - destruct Law as [Law | Law]; [discriminate |].
    destruct (reduce_object agg _) as [out |] eqn:E; [| discriminate].
    injection Hv as <-.
    destruct (all_missing (DataProcessor.bucket off times (nth j labels 0) x)) eqn:Hall;
      [| reflexivity].
    rewrite (Law agg _ out j Hagg E) in Hn; [discriminate | now rewrite length_map |].
    now rewrite (nth_map_default _ _ _ 0) by exact Hj.
Qed.

(** C3 (amended). For every table, frequency and aggregation, no row of
    the table returned by [resample] has all its aggregated values
    missing; and for the aggregations mean, min, max and median, the
    returned table contains no bucket in which every selected column is
    entirely missing: all such buckets are dropped.  (The selected columns
    are numeric, as [to_numeric] leaves them; or else pandas is assumed to
    reduce an all-missing bucket of a column of another dtype to a missing
    value.) *)
Theorem resample_drops_missing_buckets (df : frame) (datetime_col f agg : string)
    (cols : list string) (out : frame) (off : Offset) (v : list cell) (times : list Z) :
  DataProcessor.resample df datetime_col (Some f) agg cols = Ok (Some out) ->
  to_offset f = Some off ->
  get_col datetime_col df = Some v ->
  DataProcessor.index_times v = Ok times ->
  (forall c, In c cols -> numeric_dtype (series_of df c) = true)
  \/ object_reductions_skip_missing ->
  (forall i, (i < List.length (bucket_times out))%nat ->
             exists w, In w (map snd (tl out)) /\ notna (nth i w CMissing) = true)
  /\ (agg <> "sum" ->
      forall l, In l (bucket_times out) ->
                bucket_all_missing off times l (map (series_of df) cols) = false).
Proof.
  intros Hres Hoff Hv Ht Law. unfold DataProcessor.resample in Hres.
  destruct (negb (truthy_opt (Some f)) || negb (col_in datetime_col df)
            || negb (forallb (fun c => col_in c df) cols)); [discriminate |].
  unfold getitem at 1 in Hres. rewrite Hv in Hres. simpl in Hres.
  destruct (mapM _ cols) as [values |] eqn:Hvalues; simpl in Hres; [| discriminate].
  rewrite Hoff in Hres. simpl in Hres. rewrite Ht in Hres. simpl in Hres.
  destruct (DataProcessor.reduction_of agg) as [r |] eqn:Hr; simpl in Hres;
    [| discriminate].
  destruct (mapM _ values) as [outs |] eqn:Houts; simpl in Hres; [| discriminate].
  injection Hres as <-.
  apply mapM_Forall2 in Hvalues, Houts.
  set (labels := DataProcessor.bucket_labels off times) in *.
  set (mask := DataProcessor.notna_any (List.length labels) outs).
  assert (Kept : forall i, (i < List.length (select mask labels))%nat ->
            exists j v', (j < List.length labels)%nat
                         /\ nth i (select mask labels) 0 = nth j labels 0
                         /\ In v' outs
                         /\ notna (nth j v' CMissing) = true
                         /\ nth i (select mask v') CMissing = nth j v' CMissing).
  { intros i Hi. destruct (select_nth mask labels i Hi) as (j & Hj & Hw).
    unfold mask, DataProcessor.notna_any in Hj. apply nth_map_seq in Hj as [Hlt Hex].
    apply existsb_exists in Hex as (v' & Hin & Hn).
    exists j, v'. repeat split; try assumption; apply Hw. }
  simpl. rewrite times_of_map_CTime. split.
  - intros i Hi. destruct (Kept i Hi) as (j & v' & _ & _ & Hin & Hn & E).
    exists (select mask v'). split; [| now rewrite E].
    rewrite map_snd_combine.
    + now apply in_map.
    + rewrite length_map. rewrite (Forall2_length_eq _ _ _ Hvalues).
      apply (Forall2_length_eq _ _ _ Houts).
  - intros Hagg l Hl. destruct (In_nth _ _ 0 Hl) as (i & Hi & <-).
    destruct (Kept i Hi) as (j & v' & Hj & -> & Hin & Hn & _).
    destruct (Forall2_In_r _ _ _ _ Houts Hin) as (x & Hx & Hred).
    destruct (Forall2_In_r _ _ _ _ Hvalues Hx) as (c & Hc & Hget).
    assert (Hx' : series_of df c = x).
    { unfold getitem in Hget. unfold series_of.
      destruct (String.eqb_spec c datetime_col) as [-> | Hne].
      - now rewrite get_col_dropped in Hget.
      - rewrite get_col_drop_other in Hget by exact Hne.
        destruct (get_col c df); [now injection Hget | discriminate]. }
    unfold bucket_all_missing. apply (forallb_false_intro _ _ x).
    + apply in_map_iff. exists c. split; [exact Hx' | exact Hc].
    + apply (reduce_column_notna agg r off times labels x v' j); try assumption.
      * destruct Law as [Law | Law]; [left | now right].
        rewrite <- Hx'. now apply Law.
      * intros ->. apply Hagg. now apply reduction_of_sum.
Qed.

End Resample.

Lemma resample_drops_missing_buckets_witness :
  DataProcessor.resample (pd := Sample.pandas) readings "Date/Time" (Some "D") "mean"
    ["Rain"; "Snow"]
  = Ok (Some [("Date/Time", [CTime (Sample.day 2025 1 1); CTime (Sample.day 2025 1 4)]);
              ("Rain", [CNum (6 # 2); CNum 1]);
              ("Snow", [CMissing; CNum 5])])
  /\ forall l,
       In l [Sample.day 2025 1 1; Sample.day 2025 1 4] ->
       bucket_all_missing Sample.daily
         [Sample.day 2025 1 1; Sample.day 2025 1 1 + 3600000000000;
          Sample.day 2025 1 2; Sample.day 2025 1 4]
         l (map (series_of readings) ["Rain"; "Snow"]) = false.
Proof.
  split; [vm_compute; reflexivity |].
  refine (proj2 (resample_drops_missing_buckets (pd := Sample.pandas)
                   readings "Date/Time" "D" "mean" ["Rain"; "Snow"]
                   [("Date/Time", [CTime (Sample.day 2025 1 1); CTime (Sample.day 2025 1 4)]);
                    ("Rain", [CNum (6 # 2); CNum 1]);
                    ("Snow", [CMissing; CNum 5])]
                   Sample.daily
                   [CTime (Sample.day 2025 1 1);
                    CTime (Sample.day 2025 1 1 + 3600000000000);
                    CTime (Sample.day 2025 1 2);
                    CTime (Sample.day 2025 1 4)]
                   [Sample.day 2025 1 1; Sample.day 2025 1 1 + 3600000000000;
                    Sample.day 2025 1 2; Sample.day 2025 1 4]
                   _ eq_refl eq_refl eq_refl (or_introl _)) _).
  - vm_compute; reflexivity.
  - intros c [<- | [<- | []]]; reflexivity.
  - discriminate.
Defined.

(** C3, as the specification words it, fails for the sum: the second day
    has one reading and it is missing, the sum of the day is 0, and the
    day is in the table returned. *)
Lemma resample_sum_counterexample :
  DataProcessor.resample (pd := Sample.pandas)
    [("Date/Time", [CTime (Sample.day 2025 1 1); CTime (Sample.day 2025 1 2)]);
     ("Rain", [CNum 1; CMissing])]
    "Date/Time" (Some "D") "sum" ["Rain"]
  = Ok (Some [("Date/Time", [CTime (Sample.day 2025 1 1); CTime (Sample.day 2025 1 2)]);
              ("Rain", [CNum 1; CNum 0])])
  /\ In (Sample.day 2025 1 2)
        (bucket_times
           [("Date/Time", [CTime (Sample.day 2025 1 1); CTime (Sample.day 2025 1 2)]);
            ("Rain", [CNum 1; CNum 0])])
  /\ bucket_all_missing Sample.daily [Sample.day 2025 1 1; Sample.day 2025 1 2]
       (Sample.day 2025 1 2) [[CNum 1; CMissing]] = true.
Proof.
  split; [vm_compute; reflexivity |]. split; [simpl; tauto | vm_compute; reflexivity].
Qed.

Lemma resample_none_or_fatal_witness :
  to_offset (Pandas := Sample.pandas) "D" = Some Sample.daily
  /\ DataProcessor.resample (pd := Sample.pandas) readings "Date/Time" (Some "D") "avg"
       ["Rain"; "Snow"]
     = Raise (SystemExit "Unsupported agg: avg. Choose from mean,sum,min,max,median.")
  /\ DataProcessor.resample (pd := Sample.pandas) readings "Date/Time" (Some "D") "mean"
       ["Rain"; "Wind"]
     = Ok None.
Proof.
  split; [reflexivity |]. split.
  - refine (proj2 (resample_none_or_fatal (pd := Sample.pandas)
                     readings "Date/Time" (Some "D") "avg" ["Rain"; "Snow"])
                  "D" Sample.daily
                  [CTime (Sample.day 2025 1 1);
                   CTime (Sample.day 2025 1 1 + 3600000000000);
                   CTime (Sample.day 2025 1 2);
                   CTime (Sample.day 2025 1 4)]
                  eq_refl _ eq_refl eq_refl eq_refl _ _ _ _ _ _ _);
      try discriminate.
    + intros c [<- | [<- | []]]; reflexivity.
    + intros [H | [H | []]]; discriminate.
  - apply (proj1 (resample_none_or_fatal (pd := Sample.pandas)
                    readings "Date/Time" (Some "D") "mean" ["Rain"; "Wind"])).
    right; right. exists "Wind". split; [simpl; tauto | reflexivity].
Defined.

(** ** loader.py: detection of the datetime column *)

Section Detection.
Context {pd : Pandas}.

Lemma insert_desc_In x l y :
  In y (CSVLoader.insert_desc x l) <-> y = x \/ In y l.
Proof.
  induction l as [| z l IH]; simpl; [intuition |].
  destruct (CSVLoader.score_lt (snd x) (snd z)); simpl; [rewrite IH |]; intuition.
Qed.

Lemma sorted_desc_In l y : In y (CSVLoader.sorted_desc l) <-> In y l.
Proof.
  unfold CSVLoader.sorted_desc. induction l as [| x l IH]; simpl; [reflexivity |].
  rewrite insert_desc_In, IH. intuition.
Qed.

(** The head of the sorted list is the first element of the highest
    score: every element before it scores less, none after it scores
    more. *)
Lemma sorted_desc_head pre c post :
  (forall p, In p pre -> CSVLoader.score_lt (snd p) (snd c) = true) ->
  (forall q, In q post -> CSVLoader.score_lt (snd c) (snd q) = false) ->
  exists rest, CSVLoader.sorted_desc (pre ++ c :: post) = c :: rest.
Proof.
  intros Hpre Hpost. induction pre as [| p pre IH]; simpl.
  - change (CSVLoader.sorted_desc (c :: post))
      with (CSVLoader.insert_desc c (CSVLoader.sorted_desc post)).
    destruct (CSVLoader.sorted_desc post) as [| y l] eqn:E; simpl; [now exists [] |].
    assert (Hy : In y post) by (apply sorted_desc_In; rewrite E; now left).
    rewrite (Hpost y Hy). now exists (y :: l).
  - destruct IH as (rest & E); [intros q Hq; apply Hpre; now right |].
    change (CSVLoader.sorted_desc (p :: pre ++ c :: post))
      with (CSVLoader.insert_desc p (CSVLoader.sorted_desc (pre ++ c :: post))).
    rewrite E. simpl. rewrite (Hpre p (or_introl eq_refl)).
    now exists (CSVLoader.insert_desc p rest).
Qed.

Lemma find_filter_none (hint ok : string -> bool) l :
  (forall c, In c l -> hint c && ok c = false) -> find ok (filter hint l) = None.
Proof.
  induction l as [| x l IH]; intros H; simpl; [reflexivity |].
  pose proof (H x (or_introl eq_refl)) as Hx.
  destruct (hint x); simpl in *; [rewrite Hx |]; apply IH; intros c Hc; apply H; now right.
Qed.

Lemma find_filter_first (hint ok : string -> bool) pre c post :
  hint c = true -> ok c = true ->
  (forall c', In c' pre -> hint c' && ok c' = false) ->
  find ok (filter hint (pre ++ c :: post)) = Some c.
Proof.
  intros Hh Hok Hpre. induction pre as [| x pre IH]; simpl.
  - now rewrite Hh; simpl; rewrite Hok.
  - pose proof (Hpre x (or_introl eq_refl)) as Hx.
    destruct (hint x); simpl in *; [rewrite Hx |]; apply IH; intros c' Hc';
      apply Hpre; now right.
Qed.

(** C6. Detection of the datetime column is two-pass.  The score of a
    column is the fraction of its first 100 values that parse, and a
    column qualifies when its score is at least 0.8.  Pass 1 returns the
    first column, in the order of the table, whose lower-cased name
    contains "date" or "time" and which qualifies.  Only when no such
    column exists, pass 2 scores every column and returns the column of
    the highest score, the first of them in the order of the table, when
    it qualifies, and none otherwise.  Hence a qualifying column named
    "Date/Time" is selected whatever the scores of the columns without
    "date" or "time" in their names. *)
Theorem detect_datetime_col_two_pass (df : frame) :
  let sc := fun c => CSVLoader._score_datetime (series_of df c) 100 in
  let ok := fun c => CSVLoader.ge_threshold (sc c) in
  (* pass 1 *)
  (forall pre c post,
      columns df = (pre ++ c :: post)%list ->
      CSVLoader.name_hint c = true -> ok c = true ->
      (forall c', In c' pre -> CSVLoader.name_hint c' && ok c' = false) ->
      CSVLoader.detect_datetime_col df = Some c)
  (* pass 2 *)
  /\ ((forall c, In c (columns df) -> CSVLoader.name_hint c && ok c = false) ->
      (forall pre c post,
          columns df = (pre ++ c :: post)%list ->
          ok c = true ->
          (forall c', In c' pre -> CSVLoader.score_lt (sc c') (sc c) = true) ->
          (forall c', In c' post -> CSVLoader.score_lt (sc c) (sc c') = false) ->
          CSVLoader.detect_datetime_col df = Some c)
      /\ ((forall c, In c (columns df) -> ok c = false) ->
          CSVLoader.detect_datetime_col df = None))
  (* the score *)
  /\ (forall series,
        CSVLoader._score_datetime series 100
        = CSVLoader._score_datetime (firstn 100 series) 100)
  /\ (forall series parsed,
        to_datetime (firstn 100 series) = Some parsed -> parsed <> [] ->
        CSVLoader._score_datetime series 100
        = Some (inject_Z (Z.of_nat (CSVLoader.count_notna parsed))
                / inject_Z (Z.of_nat (List.length parsed)))%Q)
  /\ (forall q, CSVLoader.ge_threshold (Some q) = true <-> (8 # 10 <= q)%Q)
  (* the name preference *)
  /\ (forall pre post,
        columns df = (pre ++ "Date/Time" :: post)%list ->
        ok "Date/Time" = true ->
        (forall c', In c' pre -> CSVLoader.name_hint c' = false) ->
        CSVLoader.detect_datetime_col df = Some "Date/Time").
Proof.
  intros sc ok.
  assert (U : CSVLoader.detect_datetime_col df
              = match find ok (filter CSVLoader.name_hint (columns df)) with
                | Some c => Some c
                | None =>
                    match CSVLoader.sorted_desc
                            (map (fun c => (c, sc c)) (columns df)) with
                    | (c, s) :: _ => if CSVLoader.ge_threshold s then Some c else None
                    | [] => None
                    end
                end) by reflexivity.
  assert (P1 : forall pre c post,
      columns df = (pre ++ c :: post)%list ->
      CSVLoader.name_hint c = true -> ok c = true ->
      (forall c', In c' pre -> CSVLoader.name_hint c' && ok c' = false) ->
      CSVLoader.detect_datetime_col df = Some c).
  { intros pre c post E Hh Hok Hpre. rewrite U, E.
    now rewrite (find_filter_first CSVLoader.name_hint ok pre c post Hh Hok Hpre). }
  split; [exact P1 |]. split; [| split; [| split; [| split]]].
  - intros Hnone. split.
    + intros pre c post E Hok Hpre Hpost.
      rewrite U, (find_filter_none CSVLoader.name_hint ok _ Hnone).
      rewrite E, map_app. simpl.
      destruct (sorted_desc_head (map (fun c => (c, sc c)) pre) (c, sc c)
                  (map (fun c => (c, sc c)) post)) as (rest & ->).
      * intros p Hp. apply in_map_iff in Hp as (c' & <- & Hc'). now apply Hpre.
      * intros q Hq. apply in_map_iff in Hq as (c' & <- & Hc'). now apply Hpost.
      * fold (ok c). now rewrite Hok.
    + intros Hlow.
      rewrite U, (find_filter_none CSVLoader.name_hint ok _ Hnone).
      destruct (CSVLoader.sorted_desc _) as [| [c s] l] eqn:E; [reflexivity |].
      assert (Hin : In (c, s) (map (fun c => (c, sc c)) (columns df)))
        by (apply sorted_desc_In; rewrite E; now left).
      apply in_map_iff in Hin as (c' & [= -> <-] & Hc').
      fold (ok c). now rewrite (Hlow c Hc').
  - intros series. unfold CSVLoader._score_datetime.
    now rewrite firstn_firstn, Nat.min_id.
  - intros series parsed E Hne. unfold CSVLoader._score_datetime. rewrite E.
    destruct parsed; [congruence | reflexivity].
  - intros q. simpl. apply Qle_bool_iff.
  - intros pre post E Hok Hpre. apply (P1 pre "Date/Time" post E eq_refl Hok).
    intros c' Hc'. now rewrite (Hpre c' Hc').
Qed.

End Detection.

Lemma detect_datetime_col_two_pass_witness :
  CSVLoader._score_datetime (pd := Sample.pandas)
    mostly_dates 100
  = Some (95 # 100)%Q
  /\ CSVLoader.detect_datetime_col (pd := Sample.pandas)
       [("Station", mostly_dates);
        ("Date/Time", mostly_dates);
        ("Temp", repeat (CStr "1.5") 100)]
     = Some "Date/Time".
Proof.
  split; [vm_compute; reflexivity |].
  refine (proj2 (proj2 (proj2 (proj2 (proj2
            (detect_datetime_col_two_pass (pd := Sample.pandas)
               [("Station", mostly_dates);
                ("Date/Time", mostly_dates);
                ("Temp", repeat (CStr "1.5") 100)])))))
          ["Station"] ["Temp"] eq_refl _ _).
  - vm_compute; reflexivity.
  - intros c' [<- | []]. vm_compute; reflexivity.
Defined.

(** * Further properties *)

(** ** utils.py: slugs *)

Lemma safe_not_space a : Utils.is_safe a = true -> Text.is_space a = false.
Proof.
  destruct a as [[] [] [] [] [] [] [] []]; vm_compute; intros H;
    first [reflexivity | discriminate H].
Qed.

Lemma keep_safe_safe s : string_forall Utils.is_safe (Utils.keep_safe s) = true.
Proof.
  induction s as [| a s IH]; simpl; [reflexivity |].
  destruct (Utils.is_safe a) eqn:E; simpl; [now rewrite E | exact IH].
Qed.

Lemma keep_safe_fixed s : string_forall Utils.is_safe s = true -> Utils.keep_safe s = s.
Proof.
  induction s as [| a s IH]; simpl; [reflexivity |].
  intros H. apply andb_true_iff in H as [Ha Hs]. now rewrite Ha, IH.
Qed.

Lemma collapse_ws_fixed s :
  string_forall Utils.is_safe s = true -> Utils.collapse_ws false s = s.
Proof.
  induction s as [| a s IH]; simpl; [reflexivity |].
  intros H. apply andb_true_iff in H as [Ha Hs].
  now rewrite (safe_not_space a Ha), IH.
Qed.

Lemma lstrip_fixed s : string_forall Utils.is_safe s = true -> Text.lstrip s = s.
Proof.
  destruct s as [| a s]; simpl; [reflexivity |].
  intros H. apply andb_true_iff in H as [Ha Hs]. now rewrite (safe_not_space a Ha).
Qed.

Lemma rstrip_fixed s : string_forall Utils.is_safe s = true -> Text.rstrip s = s.
Proof.
  induction s as [| a s IH]; simpl; [reflexivity |].
  intros H. apply andb_true_iff in H as [Ha Hs]. rewrite (IH Hs).
  destruct s; [now rewrite (safe_not_space a Ha) | reflexivity].
Qed.

Lemma slugify_nonempty_safe value :
  Utils.slugify value <> ""
  /\ string_forall Utils.is_safe (Utils.slugify value) = true.
Proof.
  unfold Utils.slugify.
  pose proof (keep_safe_safe (Utils.collapse_ws false (Text.strip value))) as K.
  destruct (Utils.keep_safe _) as [| a s]; [split; [discriminate | reflexivity] |].
  split; [discriminate | exact K].
Qed.

Lemma string_forall_weaken (p q : ascii -> bool) s :
  (forall a, p a = true -> q a = true) ->
  string_forall p s = true -> string_forall q s = true.
Proof.
  intros Hpq. induction s as [| a s IH]; simpl; [reflexivity |].
  intros H. apply andb_true_iff in H as [Ha Hs]. now rewrite (Hpq a Ha), IH.
Qed.

(** X1. A slug is never empty and holds only letters, digits, dots,
    underscores and hyphens: whatever the column name is, the file name
    built from it has no white space, no path separator and no other
    character. *)
Theorem slugify_safe (value : string) :
  Utils.slugify value <> ""
  /\ string_forall Utils.is_safe (Utils.slugify value) = true
  /\ string_forall (fun a => negb (Text.is_space a)) (Utils.slugify value) = true
  /\ string_forall (fun a => negb (Ascii.eqb a "/")) (Utils.slugify value) = true.
Proof.
  destruct (slugify_nonempty_safe value) as [Hne Hsafe].
  split; [exact Hne |]. split; [exact Hsafe |].
  split; apply (string_forall_weaken Utils.is_safe); try exact Hsafe.
  - intros a Ha. now rewrite (safe_not_space a Ha).
  - intros a. destruct a as [[] [] [] [] [] [] [] []]; vm_compute; intros H;
      first [reflexivity | discriminate H].
Qed.

(** X2. A slug is its own slug: [slugify] is idempotent. *)
Theorem slugify_idempotent (value : string) :
  Utils.slugify (Utils.slugify value) = Utils.slugify value.
Proof.
  destruct (slugify_nonempty_safe value) as (Hne & Hsafe).
  generalize dependent (Utils.slugify value). intros s Hne Hsafe.
  unfold Utils.slugify, Text.strip.
  rewrite (lstrip_fixed s Hsafe), (rstrip_fixed s Hsafe), (collapse_ws_fixed s Hsafe),
    (keep_safe_fixed s Hsafe).
  destruct s; [congruence | reflexivity].
Qed.

(** ** visualizer.py: the paths returned *)

Section VisualizerPaths.
Context {pd : Pandas}.

Lemma timeseries_body_present df datetime_col outdir suffix st col :
  col_in datetime_col df = true ->
  col_in col df = true ->
  exists fig,
    Visualizer.timeseries_body df datetime_col outdir suffix st col
    = Ok ((fst st ++ [Visualizer.file fig])%list, (snd st ++ [fig])%list)
    /\ Visualizer.ylabel fig = col
    /\ Visualizer.xlabel fig = datetime_col
    /\ Visualizer.title fig = col ++ " over time" ++ suffix.
Proof.
  intros Hd Hc.
  exists {| Visualizer.title := col ++ " over time" ++ suffix;
            Visualizer.xlabel := datetime_col;
            Visualizer.ylabel := col;
            Visualizer.hist_bins := None;
            Visualizer.file :=
              Visualizer.path_join outdir (Utils.slugify col ++ suffix ++ ".png") |}.
  unfold Visualizer.timeseries_body, getitem. rewrite Hc.
  destruct (col_in_get_col _ _ Hd) as [v ->]. destruct (col_in_get_col _ _ Hc) as [w ->].
  repeat split; reflexivity.
Qed.

(** The loop of [timeseries] on a table that has the datetime column. *)
Lemma timeseries_loop df datetime_col outdir suffix cols st :
  col_in datetime_col df = true ->
  exists figs,
    for_each (Visualizer.timeseries_body df datetime_col outdir suffix) cols st
    = Ok ((fst st ++ map Visualizer.file figs)%list, (snd st ++ figs)%list)
    /\ map Visualizer.ylabel figs = filter (fun c => col_in c df) cols
    /\ Forall (fun fig => Visualizer.xlabel fig = datetime_col
                          /\ Visualizer.title fig
                             = Visualizer.ylabel fig ++ " over time" ++ suffix) figs.
Proof.
  intros Hd. revert st. induction cols as [| c cols IH]; intros st; simpl.
  - exists []. rewrite !app_nil_r. split; [now destruct st |]. split; [reflexivity | constructor].
  - destruct (col_in c df) eqn:Hc.
    + destruct (timeseries_body_present df datetime_col outdir suffix st c Hd Hc)
        as (fig & -> & Hy & Hx & Ht). simpl.
      destruct (IH ((fst st ++ [Visualizer.file fig])%list, (snd st ++ [fig])%list))
        as (figs & -> & Hfs & Hall).
      exists (fig :: figs). simpl. rewrite <- !app_assoc. simpl.
      split; [reflexivity |]. split; [now rewrite Hy, Hfs |].
      constructor; [split; [exact Hx | now rewrite Hy] | exact Hall].
    + rewrite timeseries_body_absent by exact Hc. simpl. apply IH.
Qed.

(** The loop of [timeseries] on a table without the datetime column
    returns only when no requested column is present. *)
Lemma timeseries_loop_no_datetime df datetime_col outdir suffix cols st st' :
  col_in datetime_col df = false ->
  for_each (Visualizer.timeseries_body df datetime_col outdir suffix) cols st = Ok st' ->
  st' = st /\ filter (fun c => col_in c df) cols = [].
Proof.
  intros Hd. revert st. induction cols as [| c cols IH]; intros st; simpl.
  - intros [= <-]. split; reflexivity.
  - destruct (col_in c df) eqn:Hc.
    + rewrite timeseries_body_no_datetime by assumption. discriminate.
    + rewrite timeseries_body_absent by exact Hc. simpl. apply IH.
Qed.

(** X3. When [timeseries] returns, it has saved one figure per requested
    value column that the table has, in the order of the request, the
    absent columns left out; each figure plots its column against the
    datetime column under the title "{column} over time{suffix}"; the
    paths returned are the files of these figures, in the same order; and
    a figure is saved only when the table has the datetime column. *)
Theorem timeseries_figures (df : frame) (datetime_col : string) (value_cols : list string)
    (outdir suffix : string) (paths : list string) (figs : list Visualizer.figure) :
  Visualizer.timeseries df datetime_col value_cols outdir suffix = Ok (paths, figs) ->
  map Visualizer.ylabel figs = filter (fun c => col_in c df) value_cols
  /\ paths = map Visualizer.file figs
  /\ Forall (fun fig => Visualizer.xlabel fig = datetime_col
                        /\ Visualizer.title fig
                           = Visualizer.ylabel fig ++ " over time" ++ suffix) figs
  /\ (figs <> [] -> col_in datetime_col df = true).
Proof.
  unfold Visualizer.timeseries. intros H.
  destruct (col_in datetime_col df) eqn:Hd.
  - destruct (timeseries_loop df datetime_col outdir suffix value_cols ([], []) Hd)
      as (figs' & E & Hy & Hall).
    rewrite E in H. simpl in H. injection H as <- <-. auto.
  - destruct (timeseries_loop_no_datetime _ _ _ _ _ _ _ Hd H) as [[= -> ->] Hnone].
    rewrite Hnone. repeat split; try reflexivity; [constructor | congruence].
Qed.

Lemma hist_figure_label df outdir bins suffix col :
  map Visualizer.xlabel (hist_figure df outdir bins suffix col)
  = (if has_numbers df col then [col] else [])
  /\ Forall (fun fig => Visualizer.title fig
                        = Visualizer.xlabel fig ++ " histogram" ++ suffix)
            (hist_figure df outdir bins suffix col).
Proof.
  unfold hist_figure, has_numbers.
  destruct (get_col col df) as [v |]; [| split; [reflexivity | constructor]].
  destruct (nums (DataProcessor.pd_to_numeric v));
    (split; [reflexivity |]); repeat constructor.
Qed.

(** X4. When [histograms] returns, it has saved one histogram per
    requested column that the table has and that holds at least one number
    once coerced, in the order of the request; the columns that are absent
    or without numbers are left out without an error; each histogram has
    the title "{column} histogram{suffix}", and the paths returned are the
    files of these figures, in the same order. *)
Theorem histograms_figures_saved (df : frame) (value_cols : list string) (outdir : string)
    (bins : Z) (suffix : string) (paths : list string) (figs : list Visualizer.figure) :
  Visualizer.histograms df value_cols outdir bins suffix = Ok (paths, figs) ->
  map Visualizer.xlabel figs = filter (has_numbers df) value_cols
  /\ paths = map Visualizer.file figs
  /\ Forall (fun fig => Visualizer.title fig
                        = Visualizer.xlabel fig ++ " histogram" ++ suffix) figs.
Proof.
  rewrite histograms_figures. intros [= <- <-]. split; [| split; [reflexivity |]].
  - induction value_cols as [| c cols IH]; simpl; [reflexivity |].
    rewrite map_app, IH, (proj1 (hist_figure_label df outdir bins suffix c)).
    now destruct (has_numbers df c).
  - induction value_cols as [| c cols IH]; simpl; [constructor |].
    apply Forall_app. split; [apply hist_figure_label | exact IH].
Qed.

End VisualizerPaths.

Lemma timeseries_figures_witness :
  Visualizer.timeseries readings "Date/Time" ["Snow"; "Wind (km/h)"; "Rain"]
    "figures" "_D_mean"
  = Ok (["figures/Snow_D_mean.png"; "figures/Rain_D_mean.png"],
        [ {| Visualizer.title := "Snow over time_D_mean"; Visualizer.xlabel := "Date/Time";
             Visualizer.ylabel := "Snow"; Visualizer.hist_bins := None;
             Visualizer.file := "figures/Snow_D_mean.png" |};
          {| Visualizer.title := "Rain over time_D_mean"; Visualizer.xlabel := "Date/Time";
             Visualizer.ylabel := "Rain"; Visualizer.hist_bins := None;
             Visualizer.file := "figures/Rain_D_mean.png" |} ])
  /\ map Visualizer.ylabel
         [ {| Visualizer.title := "Snow over time_D_mean"; Visualizer.xlabel := "Date/Time";
              Visualizer.ylabel := "Snow"; Visualizer.hist_bins := None;
              Visualizer.file := "figures/Snow_D_mean.png" |};
           {| Visualizer.title := "Rain over time_D_mean"; Visualizer.xlabel := "Date/Time";
              Visualizer.ylabel := "Rain"; Visualizer.hist_bins := None;
              Visualizer.file := "figures/Rain_D_mean.png" |} ]
     = filter (fun c => col_in c readings) ["Snow"; "Wind (km/h)"; "Rain"].
Proof.
  split; [reflexivity |].
  exact (proj1 (timeseries_figures readings "Date/Time" ["Snow"; "Wind (km/h)"; "Rain"]
                  "figures" "_D_mean" _ _ eq_refl)).
Defined.

Lemma histograms_figures_saved_witness :
  exists paths figs,
    Visualizer.histograms (pd := Sample.pandas) readings ["Wind"; "Snow"; "Rain"]
      "figures" 0 "" = Ok (paths, figs)
    /\ map Visualizer.xlabel figs = ["Snow"; "Rain"]
    /\ paths = map Visualizer.file figs.
Proof.
  eexists _, _. split; [vm_compute; reflexivity |].
  match goal with
  | |- map _ ?figs = _ /\ ?paths = _ =>
      destruct (histograms_figures_saved (pd := Sample.pandas) readings
                  ["Wind"; "Snow"; "Rain"] "figures" 0 "" paths figs
                  ltac:(vm_compute; reflexivity)) as (Hx & Hp & _)
  end.
  split; [exact Hx | exact Hp].
Defined.

(** ** summary.py: the rows of the summary *)

Module SummaryFacts.

Local Open Scope Q_scope.

Lemma qlen_pos (x : Q) xs : 0 < Stats.qlen (x :: xs).
Proof. unfold Stats.qlen, Qlt. simpl. lia. Qed.

Lemma square_nonneg (q : Q) : 0 <= q * q.
Proof. destruct q as [n d]. unfold Qle, Qmult. simpl. nia. Qed.

Lemma qsum_squares_nonneg m l : 0 <= Stats.qsum (map (fun y => (y - m) * (y - m)) l).
Proof.
  induction l as [| y l IH]; simpl; [apply Qle_refl |].
  rewrite <- (Qplus_0_l 0). apply Qplus_le_compat; [apply square_nonneg | exact IH].
Qed.

Lemma qmin_le_qmax x xs : Stats.qmin x xs <= Stats.qmax x xs.
Proof.
  apply (Qle_trans _ x).
  - apply StatsFacts.qmin_le. now left.
  - apply StatsFacts.qmax_ge. now left.
Qed.

Lemma qvar_nonneg x xs : 0 <= Stats.qvar 0 (x :: xs).
Proof.
  unfold Stats.qvar. cbv zeta. rewrite Z.sub_0_r.
  apply Qle_shift_div_l; [apply qlen_pos |]. rewrite Qmult_0_l.
  apply qsum_squares_nonneg.
Qed.

End SummaryFacts.

Section SummaryRows.
Context {pd : Pandas}.

(** A row of the summary comes from a requested column with numbers. *)
Lemma table_row_origin df cols r :
  In r (Summarizer.table df cols) ->
  exists col v x xs,
    In col cols /\ get_col col df = Some v
    /\ nums (DataProcessor.pd_to_numeric v) = x :: xs
    /\ r = {| Summarizer.column := col;
              Summarizer.count := Z.of_nat (List.length (x :: xs));
              Summarizer.mean := Stats.qmean (x :: xs);
              Summarizer.variance := Stats.qvar 0 (x :: xs);
              Summarizer.min := Stats.qmin x xs;
              Summarizer.max := Stats.qmax x xs |}.
Proof.
  unfold Summarizer.table. intros H. apply in_flat_map in H as (col & Hcol & Hr).
  destruct (col_in col df); simpl in Hr; [| contradiction].
  destruct (get_col col df) as [v |] eqn:Hv; [| contradiction].
  destruct (nums (DataProcessor.pd_to_numeric v)) as [| x xs] eqn:Hn; [contradiction |].
  destruct Hr as [<- | []]. exists col, v, x, xs. auto.
Qed.

(** X5. The summary has one row per requested column that the table has
    and that holds at least one number once coerced, in the order of the
    request: a column that is absent or without numbers gives no row and
    no error. *)
Theorem table_columns (df : frame) (cols : list string) :
  map Summarizer.column (Summarizer.table df cols) = filter (has_numbers df) cols.
Proof.
  unfold Summarizer.table. induction cols as [| c cols IH]; [reflexivity |].
  cbn [flat_map filter]. rewrite map_app, IH. unfold has_numbers at 2.
  destruct (col_in c df) eqn:Hc; cbn [negb].
  - destruct (get_col c df) as [v |]; [| reflexivity].
    destruct (nums (DataProcessor.pd_to_numeric v)); reflexivity.
  - now rewrite (col_in_false_get_col _ _ Hc).
Qed.

(** X6. No row of the summary is degenerate: its count is at least 1, its
    min is not above its max, and its variance and its std are not
    negative. *)
Theorem table_rows_consistent (df : frame) (cols : list string) (r : Summarizer.summary_row) :
  In r (Summarizer.table df cols) ->
  1 <= Summarizer.count r
  /\ (Summarizer.min r <= Summarizer.max r)%Q
  /\ (0 <= Summarizer.variance r)%Q
  /\ (0 <= Summarizer.std r)%R.
Proof.
  intros H. destruct (table_row_origin df cols r H) as (col & v & x & xs & _ & _ & _ & ->).
  simpl. split; [lia |].
  split; [apply SummaryFacts.qmin_le_qmax |].
  split; [apply SummaryFacts.qvar_nonneg |].
  unfold Summarizer.std. apply sqrt_pos.
Qed.

End SummaryRows.

Lemma table_rows_consistent_witness :
  exists r,
    In r (Summarizer.table (pd := Sample.pandas) readings ["Wind"; "Rain"])
    /\ Summarizer.column r = "Rain"
    /\ 1 <= Summarizer.count r
    /\ (Summarizer.min r <= Summarizer.max r)%Q.
Proof.
  eexists. split; [vm_compute; left; reflexivity |]. split; [reflexivity |].
  match goal with
  | |- 1 <= Summarizer.count ?r /\ _ =>
      destruct (table_rows_consistent (pd := Sample.pandas) readings ["Wind"; "Rain"] r)
        as (Hc & Hm & _); [vm_compute; left; reflexivity | split; assumption]
  end.
Defined.

(** ** processor.py: what the steps keep *)

Lemma get_col_on_columns c cols g df :
  get_col c (on_columns cols g df)
  = match get_col c df with
    | Some v => Some (if listed cols c then map g v else v)
    | None => None
    end.
Proof.
  unfold on_columns, listed. induction df as [| [n v] df IH]; [reflexivity |].
  cbn [map get_col fst snd].
  destruct (existsb (fun c' => String.eqb c' n) cols) eqn:L; cbn [get_col fst snd];
    destruct (String.eqb c n) eqn:E; try exact IH;
    apply String.eqb_eq in E; subst n; now rewrite L.
Qed.

Lemma listed_In cols c : listed cols c = true <-> In c cols.
Proof.
  unfold listed. rewrite existsb_exists. split.
  - intros (x & Hx & E). apply String.eqb_eq in E. now subst.
  - intros H. exists c. split; [exact H | apply String.eqb_refl].
Qed.

Lemma columns_on_columns' cols g df : columns (on_columns cols g df) = columns df.
Proof.
  unfold columns, on_columns. rewrite map_map. apply map_ext.
  intros [n v]; simpl. now destruct (existsb _ cols).
Qed.

Section ProcessorSteps.
Context {pd : Pandas}.

Lemma numeric_dtype_coerced v : numeric_dtype (DataProcessor.pd_to_numeric v) = true.
Proof.
  unfold numeric_dtype, DataProcessor.pd_to_numeric.
  induction v as [| c v IH]; simpl; [reflexivity |]. rewrite IH.
  destruct c as [s | q | t |]; simpl; try reflexivity.
  now destruct (numeric_of_string s).
Qed.

(** X7. [to_numeric] keeps the columns of the table and their lengths;
    every listed column is of numeric dtype afterwards (numbers and NaN
    only), and every column that is not listed is left as it is. *)
Theorem to_numeric_effect (df : frame) (cols : list string) :
  columns (DataProcessor.to_numeric df cols) = columns df
  /\ (forall c, In c cols ->
                numeric_dtype (series_of (DataProcessor.to_numeric df cols) c) = true)
  /\ (forall c, ~ In c cols ->
                get_col c (DataProcessor.to_numeric df cols) = get_col c df)
  /\ (forall c, List.length (series_of (DataProcessor.to_numeric df cols) c)
                = List.length (series_of df c)).
Proof.
  rewrite to_numeric_on_columns. split; [apply columns_on_columns' |].
  split; [| split].
  - intros c Hc. unfold series_of. rewrite get_col_on_columns.
    destruct (get_col c df) as [v |]; [| reflexivity].
    rewrite (proj2 (listed_In cols c) Hc). apply numeric_dtype_coerced.
  - intros c Hc. rewrite get_col_on_columns.
    destruct (get_col c df) as [v |]; [| reflexivity].
    destruct (listed cols c) eqn:E; [| reflexivity].
    apply listed_In in E. contradiction.
  - intros c. unfold series_of. rewrite get_col_on_columns.
    destruct (get_col c df) as [v |]; [| reflexivity].
    destruct (listed cols c); [apply length_map | reflexivity].
Qed.

(** After [to_numeric] on the same columns, [handle_trace_values] changes
    nothing, as long as no number prints as the token and the token is not
    "nan": the text that was the token is already NaN. *)
Lemma trace_after_to_numeric (df : frame) (cols : list string)
    (trace_token : string) (replacement : Q) :
  NoDup (columns df) ->
  (forall q, DataProcessor.trace_match trace_token (CNum q) = false) ->
  DataProcessor.trace_match trace_token CMissing = false ->
  DataProcessor.handle_trace_values (DataProcessor.to_numeric df cols) cols
    trace_token replacement
  = DataProcessor.to_numeric df cols.
Proof.
  intros ND Hnum Hnan.
  rewrite handle_trace_values_on_columns
    by (rewrite to_numeric_on_columns, columns_on_columns'; exact ND).
  rewrite to_numeric_on_columns. unfold on_columns. rewrite map_map.
  apply map_ext. intros [n v]; simpl.
  destruct (existsb (fun c => String.eqb c n) cols) eqn:E; simpl; rewrite E;
    [| reflexivity].
  f_equal. rewrite map_map. apply map_ext. intros c. unfold replace_trace.
  destruct c as [s | q | t |]; simpl.
  - destruct (numeric_of_string s); [now rewrite Hnum | now rewrite Hnan].
  - now rewrite Hnum.
  - now rewrite Hnum.
  - now rewrite Hnan.
Qed.

Lemma bound_stage op datetime_col bound df v :
  get_col datetime_col df = Some v ->
  datetime_dtype v = true ->
  match bound with
  | Some s => if Text.truthy s
              then DataProcessor.keep_where op datetime_col s df else Ok df
  | None => Ok df
  end = Ok (narrow (bound_test op bound) v df).
Proof.
  intros Hv Hd. unfold bound_test. destruct bound as [s |]; [| reflexivity].
  destruct (Text.truthy s); [| reflexivity].
  now rewrite (keep_where_datetime _ _ _ _ _ Hv Hd).
Qed.

Lemma get_col_narrow c test v df w :
  get_col c df = Some w ->
  get_col c (narrow test v df)
  = Some (match test with Some h => select (map h v) w | None => w end).
Proof.
  intros H. destruct test as [h |]; simpl; [now apply get_col_take_rows | exact H].
Qed.

(** What [filter_date_range] returns on a table with a parsed datetime
    column. *)
Lemma filter_date_range_narrow df datetime_col v start end_ :
  get_col datetime_col df = Some v ->
  datetime_dtype v = true ->
  DataProcessor.filter_date_range df datetime_col start end_
  = Ok (narrow (date_test start end_) v df).
Proof.
  intros Hv Hd. unfold DataProcessor.filter_date_range.
  rewrite (get_col_col_in _ _ _ Hv). simpl.
  rewrite (bound_stage Z.geb datetime_col start df v Hv Hd). simpl.
  unfold date_test.
  destruct (bound_test Z.geb start) as [f |] eqn:Ef; simpl.
  - rewrite (bound_stage Z.leb datetime_col end_ _ (select (map f v) v)).
    + destruct (bound_test Z.leb end_) as [g |]; simpl; [| reflexivity].
      now rewrite take_rows_take_rows.
    + now apply get_col_take_rows.
    + now apply datetime_dtype_select.
  - rewrite (bound_stage Z.leb datetime_col end_ df v Hv Hd).
    now destruct (bound_test Z.leb end_).
Qed.

(** X8. On a table with a parsed datetime column, when
    [filter_date_range] returns, what it returns is the table itself or a
    selection of its rows in their order, with the same columns; and
    filtering the result again with the same bounds returns it
    unchanged. *)
Theorem filter_date_range_idempotent (df : frame) (datetime_col : string)
    (v : list cell) (start end_ : option string) (df' : frame) :
  get_col datetime_col df = Some v ->
  datetime_dtype v = true ->
  DataProcessor.filter_date_range df datetime_col start end_ = Ok df' ->
  (df' = df \/ exists mask, df' = take_rows mask df)
  /\ columns df' = columns df
  /\ DataProcessor.filter_date_range df' datetime_col start end_ = Ok df'.
Proof.
  intros Hv Hd H. rewrite (filter_date_range_narrow _ _ _ _ _ Hv Hd) in H.
  injection H as <-.
  destruct (date_test start end_) as [h |] eqn:Et; simpl.
  - split; [right; now eexists |]. split; [apply columns_take_rows |].
    rewrite (filter_date_range_narrow _ _ (select (map h v) v)).
    + rewrite Et. simpl. rewrite take_rows_take_rows. do 2 f_equal.
      apply map_ext. intros c. now destruct (h c).
    + now apply get_col_take_rows.
    + now apply datetime_dtype_select.
  - split; [now left |]. split; [reflexivity |].
    rewrite (filter_date_range_narrow _ _ _ _ _ Hv Hd). now rewrite Et.
Qed.

End ProcessorSteps.

(** The numbers of the sample instance never print as a word: their text
    has a decimal point or a fraction bar. *)

Lemma mentions_app a s1 s2 :
  mentions a (s1 ++ s2) = mentions a s1 || mentions a s2.
Proof.
  induction s1 as [| b s1 IH]; simpl; [reflexivity |]. now rewrite IH, orb_assoc.
Qed.

Lemma mentions_lstrip a s :
  Text.is_space a = false -> mentions a (Text.lstrip s) = mentions a s.
Proof.
  intros Ha. induction s as [| b s IH]; simpl; [reflexivity |].
  destruct (Text.is_space b) eqn:Hb; [| reflexivity].
  rewrite IH. destruct (Ascii.eqb_spec a b); [congruence | reflexivity].
Qed.

Lemma mentions_rstrip a s :
  Text.is_space a = false -> mentions a (Text.rstrip s) = mentions a s.
Proof.
  intros Ha. induction s as [| b s IH]; simpl; [reflexivity |].
  destruct (Text.rstrip s) as [| c r].
  - simpl in IH. rewrite <- IH. rewrite orb_false_r.
    destruct (Text.is_space b) eqn:Hb; simpl; [| now rewrite orb_false_r].
    destruct (Ascii.eqb_spec a b); [congruence | reflexivity].
  - simpl. simpl in IH. now rewrite IH.
Qed.

Lemma mentions_lower a s :
  Text.lower_char a = a -> mentions a s = true -> mentions a (Text.lower s) = true.
Proof.
  intros Ha. induction s as [| b s IH]; simpl; [discriminate |].
  intros H. apply orb_true_iff in H as [H | H].
  - apply Ascii.eqb_eq in H. subst b. rewrite Ha. now rewrite Ascii.eqb_refl.
  - rewrite (IH H). apply orb_true_r.
Qed.

Lemma string_of_Q_punctuated q :
  mentions "." (Sample.string_of_Q q) = true \/ mentions "/" (Sample.string_of_Q q) = true.
Proof.
  unfold Sample.string_of_Q. cbv zeta.
  destruct (Sample.decimal_places 18 0 (Z.abs (Qnum q)) (Z.pos (Qden q))).
  - left. rewrite !mentions_app. simpl. now rewrite !orb_true_r.
  - right. rewrite !mentions_app. simpl. now rewrite !orb_true_r.
Qed.

Lemma sample_numbers_not_trace q :
  DataProcessor.trace_match (pd := Sample.pandas) "Trace" (CNum q) = false.
Proof.
  unfold DataProcessor.trace_match. simpl DataProcessor.astype_str.
  destruct (String.eqb_spec (Text.lower (Text.strip (Sample.string_of_Q q)))
              (Text.lower "Trace")) as [E |]; [| reflexivity].
  exfalso.
  assert (P : forall a, Text.is_space a = false -> Text.lower_char a = a ->
                        mentions a (Sample.string_of_Q q) = true ->
                        mentions a (Text.lower "Trace") = true).
  { intros a Hs Hl Hm. rewrite <- E. apply mentions_lower; [exact Hl |].
    unfold Text.strip. now rewrite mentions_rstrip, mentions_lstrip. }
  destruct (string_of_Q_punctuated q) as [H | H];
    apply P in H; try reflexivity; discriminate H.
Qed.

Lemma filter_date_range_idempotent_witness :
  DataProcessor.filter_date_range (pd := Sample.pandas) readings "Date/Time"
    (Some "2025-01-02") None
  = Ok [("Date/Time", [CTime (Sample.day 2025 1 2); CTime (Sample.day 2025 1 4)]);
        ("Rain", [CMissing; CNum 1]);
        ("Snow", [CMissing; CNum 5])]
  /\ DataProcessor.filter_date_range (pd := Sample.pandas)
       [("Date/Time", [CTime (Sample.day 2025 1 2); CTime (Sample.day 2025 1 4)]);
        ("Rain", [CMissing; CNum 1]);
        ("Snow", [CMissing; CNum 5])]
       "Date/Time" (Some "2025-01-02") None
     = Ok [("Date/Time", [CTime (Sample.day 2025 1 2); CTime (Sample.day 2025 1 4)]);
           ("Rain", [CMissing; CNum 1]);
           ("Snow", [CMissing; CNum 5])].
Proof.
  split; [reflexivity |].
  exact (proj2 (proj2 (filter_date_range_idempotent (pd := Sample.pandas) readings
                         "Date/Time"
                         [CTime (Sample.day 2025 1 1);
                          CTime (Sample.day 2025 1 1 + 3600000000000);
                          CTime (Sample.day 2025 1 2);
                          CTime (Sample.day 2025 1 4)]
                         (Some "2025-01-02") None _ eq_refl eq_refl eq_refl))).
Defined.

(** ** processor.py: the shape and the errors of [resample] *)

Lemma map_fst_combine {A B : Type} (l : list A) (l' : list B) :
  List.length l = List.length l' -> map fst (combine l l') = l.
Proof.
  revert l'. induction l as [| x l IH]; intros [| y l'] H; simpl in *; try discriminate;
    [reflexivity |]. f_equal. apply IH. lia.
Qed.

Lemma select_all_true {A B : Type} (f : B -> bool) (l1 : list B) (l2 : list A) :
  (forall x, In x l1 -> f x = true) ->
  List.length l1 = List.length l2 ->
  select (map f l1) l2 = l2.
Proof.
  revert l2. induction l1 as [| x l1 IH]; intros [| y l2] Hf Hl; simpl in *;
    try discriminate; [reflexivity |].
  rewrite (Hf x (or_introl eq_refl)). f_equal. apply IH; [| lia].
  intros z Hz. apply Hf. now right.
Qed.

Lemma mapM_first_error {A B : Type} (f : A -> result B) l x e :
  In x l ->
  f x = Raise e ->
  (forall y, In y l -> y = x \/ exists b, f y = Ok b) ->
  mapM f l = Raise e.
Proof.
  intros Hin Hx Hok. induction l as [| y l IH]; [contradiction |]. simpl.
  destruct (Hok y (or_introl eq_refl)) as [-> | [b Hb]].
  - now rewrite Hx.
  - rewrite Hb. simpl. destruct Hin as [-> | Hin]; [congruence |].
    rewrite IH; [reflexivity | exact Hin |].
    intros z Hz. apply Hok. now right.
Qed.

Lemma Forall2_In_l {A B : Type} (R : A -> B -> Prop) l l' x :
  Forall2 R l l' -> In x l -> exists y, In y l' /\ R x y.
Proof.
  induction 1 as [| a b l l' Hab _ IH]; intros Hin; [contradiction |].
  destruct Hin as [-> | Hin]; [exists b; split; [now left | exact Hab] |].
  destruct (IH Hin) as (y & Hy & Hr). exists y. split; [now right | exact Hr].
Qed.

Section ResampleShape.
Context {pd : Pandas}.

(** The pieces of a call of [resample] that returned a table. *)
Lemma resample_Some_inv df datetime_col freq agg cols out :
  DataProcessor.resample df datetime_col freq agg cols = Ok (Some out) ->
  exists f v values off times r outs,
    freq = Some f
    /\ get_col datetime_col df = Some v
    /\ Forall2 (fun c x => getitem c (filter (fun nv : column =>
                                                negb (String.eqb datetime_col (fst nv))) df)
                           = Ok x) cols values
    /\ to_offset f = Some off
    /\ DataProcessor.index_times v = Ok times
    /\ DataProcessor.reduction_of agg = Some r
    /\ Forall2 (fun x y => DataProcessor.reduce_column agg r off times
                             (DataProcessor.bucket_labels off times) x = Ok y) values outs
    /\ out = (datetime_col,
              map CTime (select (DataProcessor.notna_any
                                   (List.length (DataProcessor.bucket_labels off times)) outs)
                                (DataProcessor.bucket_labels off times)))
             :: combine cols
                  (map (select (DataProcessor.notna_any
                                  (List.length (DataProcessor.bucket_labels off times)) outs))
                       outs).
Proof.
  intros H. unfold DataProcessor.resample in H.
  destruct (negb (truthy_opt freq) || negb (col_in datetime_col df)
            || negb (forallb (fun c => col_in c df) cols)) eqn:G; [discriminate |].
  destruct freq as [f |]; [| discriminate G].
  unfold getitem at 1 in H.
  destruct (get_col datetime_col df) as [v |] eqn:Hv; simpl in H; [| discriminate].
  destruct (mapM _ cols) as [values |] eqn:Hvalues; simpl in H; [| discriminate].
  destruct (to_offset f) as [off |] eqn:Hoff; simpl in H; [| discriminate].
  destruct (DataProcessor.index_times v) as [times |] eqn:Ht; simpl in H; [| discriminate].
  destruct (DataProcessor.reduction_of agg) as [r |] eqn:Hr; simpl in H; [| discriminate].
  destruct (mapM _ values) as [outs |] eqn:Houts; simpl in H; [| discriminate].
  injection H as <-. apply mapM_Forall2 in Hvalues, Houts.
  exists f, v, values, off, times, r, outs. repeat split; assumption.
Qed.

(** X9. When [resample] returns a table, the first column of the table
    is the datetime column, under its name and holding timestamps only,
    and the columns after it are the requested columns in the order of the
    request. *)
Theorem resample_columns (df : frame) (datetime_col : string) (freq : option string)
    (agg : string) (cols : list string) (out : frame) :
  DataProcessor.resample df datetime_col freq agg cols = Ok (Some out) ->
  columns out = datetime_col :: cols
  /\ hd_error out = Some (datetime_col, map CTime (bucket_times out)).
Proof.
  intros H.
  destruct (resample_Some_inv _ _ _ _ _ _ H)
    as (f & v & values & off & times & r & outs & _ & _ & Hvalues & _ & _ & _ & Houts & ->).
  split.
  - unfold columns. simpl. f_equal. apply map_fst_combine.
    rewrite length_map, (Forall2_length_eq _ _ _ Hvalues).
    apply (Forall2_length_eq _ _ _ Houts).
  - simpl. now rewrite times_of_map_CTime.
Qed.

(** X10. With the sum and at least one requested column of numeric dtype,
    [resample] drops no bucket: the table returned has every bucket from
    the first timestamp to the last, the buckets without rows included. *)
Theorem resample_sum_keeps_buckets (df : frame) (datetime_col f : string)
    (cols : list string) (out : frame) (off : Offset) (v : list cell) (times : list Z)
    (c : string) :
  DataProcessor.resample df datetime_col (Some f) "sum" cols = Ok (Some out) ->
  to_offset f = Some off ->
  get_col datetime_col df = Some v ->
  DataProcessor.index_times v = Ok times ->
  In c cols ->
  numeric_dtype (series_of df c) = true ->
  bucket_times out = DataProcessor.bucket_labels off times.
Proof.
  intros H Hoff Hv Ht Hc Hnum.
  destruct (resample_Some_inv _ _ _ _ _ _ H)
    as (f' & v' & values & off' & times' & r & outs & [= <-] & Hv' & Hvalues & Hoff'
        & Ht' & Hr & Houts & ->).
  rewrite Hv in Hv'. injection Hv' as <-. rewrite Hoff in Hoff'. injection Hoff' as <-.
  rewrite Ht in Ht'. injection Ht' as <-. injection Hr as <-.
  simpl. rewrite times_of_map_CTime.
  set (labels := DataProcessor.bucket_labels off times) in *.
  destruct (Forall2_In_l _ _ _ _ Hvalues Hc) as (x & Hx & Hcx).
  assert (Hxn : numeric_dtype x = true).
  { unfold getitem in Hcx. unfold series_of in Hnum.
    destruct (String.eqb_spec c datetime_col) as [-> | Hne].
    - now rewrite get_col_dropped in Hcx.
    - rewrite get_col_drop_other in Hcx by exact Hne.
      destruct (get_col c df); [injection Hcx as <-; exact Hnum | discriminate]. }
  destruct (Forall2_In_l _ _ _ _ Houts Hx) as (y & Hy & Hxy).
  assert (Ey : y = map (DataProcessor.reduce_numeric DataProcessor.Sum)
                     (map (fun l => DataProcessor.bucket off times l x) labels)).
  { unfold DataProcessor.reduce_column in Hxy. rewrite Hxn in Hxy. now injection Hxy. }
  unfold DataProcessor.notna_any. apply select_all_true; [| now rewrite length_seq].
  intros i Hi. apply in_seq in Hi. apply existsb_exists. exists y. split; [exact Hy |].
  rewrite Ey, map_map. rewrite (nth_map_default _ _ _ 0) by lia. reflexivity.
Qed.

(** X11. Requesting the datetime column itself as a value column makes
    [resample] raise a KeyError: the column becomes the index and is no
    longer among the columns that are selected.  The frequency and the
    aggregation are not looked at before. *)
Theorem resample_datetime_requested (df : frame) (datetime_col f agg : string)
    (cols : list string) :
  f <> "" ->
  (forall c, In c cols -> col_in c df = true) ->
  In datetime_col cols ->
  DataProcessor.resample df datetime_col (Some f) agg cols = Raise (KeyError datetime_col).
Proof.
  intros Hf Hcols Hin. unfold DataProcessor.resample.
  assert (G : negb (truthy_opt (Some f)) || negb (col_in datetime_col df)
              || negb (forallb (fun c => col_in c df) cols) = false).
  { simpl. rewrite (Hcols _ Hin). destruct f; [congruence |]. simpl.
    apply negb_false_iff. apply forallb_forall. exact Hcols. }
  rewrite G. unfold getitem at 1.
  destruct (col_in_get_col _ _ (Hcols _ Hin)) as [v ->]. simpl.
  rewrite (mapM_first_error _ cols datetime_col (KeyError datetime_col) Hin);
    [reflexivity | |].
  - unfold getitem. now rewrite get_col_dropped.
  - intros y Hy. destruct (String.eqb_spec y datetime_col) as [-> | Hne]; [now left |].
    right. unfold getitem. rewrite get_col_drop_other by exact Hne.
    destruct (col_in_get_col _ _ (Hcols _ Hy)) as [w ->]. now exists w.
Qed.

(** X12. A frequency that pandas does not accept makes [resample] raise a
    ValueError, whatever the aggregation is: an unsupported aggregation is
    reported only for a valid frequency. *)
Theorem resample_invalid_frequency (df : frame) (datetime_col f agg : string)
    (cols : list string) :
  f <> "" ->
  to_offset f = None ->
  col_in datetime_col df = true ->
  (forall c, In c cols -> col_in c df = true) ->
  ~ In datetime_col cols ->
  DataProcessor.resample df datetime_col (Some f) agg cols = Raise ValueError.
Proof.
  intros Hf Hoff Hd Hcols Hnot. unfold DataProcessor.resample.
  assert (G : negb (truthy_opt (Some f)) || negb (col_in datetime_col df)
              || negb (forallb (fun c => col_in c df) cols) = false).
  { simpl. rewrite Hd. destruct f; [congruence |]. simpl.
    apply negb_false_iff. apply forallb_forall. exact Hcols. }
  rewrite G. unfold getitem at 1. destruct (col_in_get_col _ _ Hd) as [v ->]. simpl.
  rewrite (mapM_ok _ (series_of df)).
  - simpl. now rewrite Hoff.
  - intros c Hc. unfold getitem, series_of.
    rewrite get_col_drop_other by (intros ->; contradiction).
    destruct (col_in_get_col _ _ (Hcols c Hc)) as [w ->]. reflexivity.
Qed.

(** X13. After [to_numeric] on the requested columns, [resample] with a
    valid frequency, a supported aggregation, a datetime column of
    timestamps and requested columns that the table has returns a table:
    it neither raises nor returns none. *)
Theorem resample_after_to_numeric (df : frame) (datetime_col f agg : string)
    (cols : list string) (off : Offset) (v : list cell) :
  f <> "" ->
  to_offset f = Some off ->
  get_col datetime_col df = Some v ->
  forallb is_time v = true ->
  (forall c, In c cols -> col_in c df = true) ->
  ~ In datetime_col cols ->
  In agg ["mean"; "sum"; "min"; "max"; "median"] ->
  exists out,
    DataProcessor.resample (DataProcessor.to_numeric df cols) datetime_col (Some f) agg cols
    = Ok (Some out).
Proof.
  intros Hf Hoff Hv Ht Hcols Hnot Hagg.
  rewrite to_numeric_on_columns.
  set (df' := on_columns cols DataProcessor.to_numeric_cell df).
  assert (Hin' : forall c, col_in c df' = col_in c df)
    by (intros c; unfold col_in, df'; now rewrite columns_on_columns').
  assert (Hv' : get_col datetime_col df' = Some v).
  { unfold df'. rewrite get_col_on_columns, Hv.
    destruct (listed cols datetime_col) eqn:E; [| reflexivity].
    apply listed_In in E. contradiction. }
  unfold DataProcessor.resample.
  assert (G : negb (truthy_opt (Some f)) || negb (col_in datetime_col df')
              || negb (forallb (fun c => col_in c df') cols) = false).
  { simpl. rewrite (get_col_col_in _ _ _ Hv'). destruct f; [congruence |]. simpl.
    apply negb_false_iff. apply forallb_forall. intros c Hc. rewrite Hin'. now apply Hcols. }
  rewrite G. unfold getitem at 1. rewrite Hv'. simpl.
  rewrite (mapM_ok _ (series_of df')).
  - simpl. rewrite Hoff. simpl.
    destruct (index_times_ok v Ht) as (times & -> & _). simpl.
    assert (Hr : exists r, DataProcessor.reduction_of agg = Some r).
    { simpl in Hagg. destruct Hagg as [<- | [<- | [<- | [<- | [<- | []]]]]]; now eexists. }
    destruct Hr as [r ->].
    rewrite (mapM_ok _ (fun x => map (DataProcessor.reduce_numeric r)
                                   (map (fun l => DataProcessor.bucket off times l x)
                                        (DataProcessor.bucket_labels off times)))).
    + simpl. now eexists.
    + intros x Hx. apply in_map_iff in Hx as (c & <- & Hc).
      unfold DataProcessor.reduce_column.
      assert (N : numeric_dtype (series_of df' c) = true).
      { unfold series_of, df'. rewrite get_col_on_columns.
        destruct (get_col c df) as [w |]; [| reflexivity].
        rewrite (proj2 (listed_In cols c) Hc). apply numeric_dtype_coerced. }
      now rewrite N.
  - intros c Hc. unfold getitem, series_of.
    rewrite get_col_drop_other by (intros ->; contradiction).
    destruct (col_in_get_col c df') as [w ->]; [| reflexivity].
    rewrite Hin'. now apply Hcols.
Qed.

End ResampleShape.

(** ** loader.py: scores, detection and loading *)

Section LoaderFacts.
Context {pd : Pandas}.

Lemma count_notna_le parsed :
  (CSVLoader.count_notna parsed <= List.length parsed)%nat.
Proof. unfold CSVLoader.count_notna. apply filter_length_le. Qed.

(** X14. A score is NaN or a fraction between 0 and 1. *)
Theorem score_datetime_range (series : list cell) (sample : nat) (q : Q) :
  CSVLoader._score_datetime series sample = Some q ->
  (0 <= q)%Q /\ (q <= 1)%Q.
Proof.
  unfold CSVLoader._score_datetime.
  destruct (to_datetime (firstn sample series)) as [parsed |].
  - unfold CSVLoader.notna_mean. destruct parsed as [| p parsed]; [discriminate |].
    intros [= <-].
    assert (L : (0 < inject_Z (Z.of_nat (List.length (p :: parsed))))%Q)
      by (unfold Qlt; simpl; lia).
    pose proof (count_notna_le (p :: parsed)) as C. split.
    + apply Qle_shift_div_l; [exact L |]. rewrite Qmult_0_l.
      change 0%Q with (inject_Z 0). rewrite <- Zle_Qle. lia.
    + apply Qle_shift_div_r; [exact L |]. rewrite Qmult_1_l.
      rewrite <- Zle_Qle. rewrite Zpos_P_of_succ_nat. simpl List.length in C. lia.
  - intros [= <-]. split; unfold Qle; simpl; lia.
Qed.

(** X15. Detection is sound: a column that is returned is a column of the
    table whose score is at least 0.8; and when some column whose name
    contains "date" or "time" has such a score, the column returned has
    "date" or "time" in its name. *)
Theorem detect_datetime_col_sound (df : frame) (c : string) :
  CSVLoader.detect_datetime_col df = Some c ->
  In c (columns df)
  /\ CSVLoader.ge_threshold (CSVLoader._score_datetime (series_of df c) 100) = true
  /\ ((exists c', In c' (columns df)
                  /\ CSVLoader.name_hint c' = true
                  /\ CSVLoader.ge_threshold
                       (CSVLoader._score_datetime (series_of df c') 100) = true) ->
      CSVLoader.name_hint c = true).
Proof.
  unfold CSVLoader.detect_datetime_col.
  set (ok := fun c => CSVLoader.ge_threshold (CSVLoader._score_datetime (series_of df c) 100)).
  destruct (find ok (filter CSVLoader.name_hint (columns df))) as [c0 |] eqn:F.
  - intros [= <-]. apply find_some in F as [Hin Hok].
    apply filter_In in Hin as [Hin Hh]. auto.
  - destruct (CSVLoader.sorted_desc _) as [| [c1 s] l] eqn:E; [discriminate |].
    destruct (CSVLoader.ge_threshold s) eqn:Hs; [| discriminate]. intros [= <-].
    assert (Hin : In (c1, s) (map (fun c => (c, CSVLoader._score_datetime (series_of df c) 100))
                                  (columns df)))
      by (apply sorted_desc_In; rewrite E; now left).
    apply in_map_iff in Hin as (c' & [= -> <-] & Hc').
    split; [exact Hc' |]. split; [exact Hs |].
    intros (c2 & H2 & Hh & Hok). exfalso.
    pose proof (find_none _ _ F c2) as N.
    rewrite filter_In in N. unfold ok in N. rewrite N in Hok; [discriminate | auto].
Qed.

End LoaderFacts.

Lemma detect_datetime_col_sound_witness :
  CSVLoader.detect_datetime_col (pd := Sample.pandas)
    [("Station", mostly_dates); ("Date/Time", mostly_dates)] = Some "Date/Time"
  /\ In "Date/Time" (columns [("Station", mostly_dates); ("Date/Time", mostly_dates)])
  /\ CSVLoader.ge_threshold
       (CSVLoader._score_datetime (pd := Sample.pandas)
          (series_of [("Station", mostly_dates); ("Date/Time", mostly_dates)] "Date/Time")
          100) = true.
Proof.
  assert (E : CSVLoader.detect_datetime_col (pd := Sample.pandas)
                [("Station", mostly_dates); ("Date/Time", mostly_dates)] = Some "Date/Time")
    by (vm_compute; reflexivity).
  split; [exact E |].
  destruct (detect_datetime_col_sound (pd := Sample.pandas) _ _ E) as (Hin & Hok & _).
  split; assumption.
Defined.

Lemma score_datetime_range_witness :
  CSVLoader._score_datetime (pd := Sample.pandas) mostly_dates 100 = Some (95 # 100)%Q
  /\ (0 <= 95 # 100)%Q /\ (95 # 100 <= 1)%Q.
Proof.
  assert (E : CSVLoader._score_datetime (pd := Sample.pandas) mostly_dates 100
              = Some (95 # 100)%Q) by (vm_compute; reflexivity).
  split; [exact E |].
  exact (score_datetime_range (pd := Sample.pandas) mostly_dates 100 (95 # 100)%Q E).
Defined.

Lemma series_of_update_const c X df :
  col_in c df = true -> series_of (update_col c (fun _ => X) df) c = X.
Proof.
  unfold series_of, col_in, columns, update_col.
  induction df as [| [n v] df IH]; simpl; [discriminate |].
  destruct (String.eqb c n) eqn:E; simpl; rewrite E; [reflexivity | exact IH].
Qed.

Lemma series_of_take_rows mask df c :
  series_of (take_rows mask df) c = select mask (series_of df c).
Proof.
  unfold series_of. destruct (get_col c df) as [v |] eqn:E.
  - now rewrite (get_col_take_rows _ mask _ _ E).
  - rewrite select_nil_r.
    assert (N : get_col c (take_rows mask df) = None); [| now rewrite N].
    clear -E. induction df as [| [n w] df IH]; simpl in *; [reflexivity |].
    destruct (String.eqb c n); [discriminate | now apply IH].
Qed.

Lemma columns_reorder idx df : columns (CSVLoader.reorder idx df) = columns df.
Proof. unfold columns, CSVLoader.reorder. rewrite map_map. now apply map_ext. Qed.

Lemma series_of_reorder idx df c :
  col_in c df = true ->
  series_of (CSVLoader.reorder idx df) c
  = map (fun i => nth i (series_of df c) CMissing) idx.
Proof.
  unfold series_of, col_in, columns, CSVLoader.reorder.
  induction df as [| [n v] df IH]; simpl; [discriminate |].
  destruct (String.eqb c n); simpl; [reflexivity | exact IH].
Qed.

Lemma select_notna_stamps parsed :
  select (map notna (map CSVLoader.cell_of_stamp parsed))
         (map CSVLoader.cell_of_stamp parsed)
  = map CTime (parsed_stamps parsed).
Proof.
  induction parsed as [| [t |] parsed IH]; simpl; [reflexivity | now rewrite IH | exact IH].
Qed.

Lemma stamps_map_CTime l : CSVLoader.stamps (map CTime l) = l.
Proof. induction l as [| t l IH]; simpl; [reflexivity | now rewrite IH]. Qed.

Lemma length_parsed_stamps parsed :
  List.length (parsed_stamps parsed) = CSVLoader.count_notna parsed.
Proof.
  unfold CSVLoader.count_notna.
  induction parsed as [| [t |] parsed IH]; simpl; [reflexivity | now rewrite IH | exact IH].
Qed.

Section Loading.
Context {pd : Pandas} {np : CSVLoader.Numpy}.

(** X16. [load] normalises the time axis.  When the datetime column (given
    by the caller, or detected) is a column of the table and its parse
    does not raise, the frame returned has the same columns, its datetime
    column holds timestamps only (the rows whose value did not parse are
    dropped), as many as the values that parsed, and the timestamps do not
    decrease from row to row. *)
Theorem load_frame_normalises (df : frame) (datetime_col : option string) (c : string)
    (parsed : list (option Z)) :
  datetime_col = Some c
  \/ (datetime_col = None /\ CSVLoader.detect_datetime_col df = Some c) ->
  col_in c df = true ->
  to_datetime (series_of df c) = Some parsed ->
  argsort_sorts (parsed_stamps parsed) = true ->
  exists df',
    CSVLoader.load_frame df datetime_col = Ok (df', Some c)
    /\ columns df' = columns df
    /\ forallb is_time (series_of df' c) = true
    /\ nondecreasing (CSVLoader.stamps (series_of df' c)) = true
    /\ List.length (series_of df' c) = CSVLoader.count_notna parsed.
Proof.
  intros Hdc Hc Hp Hs. unfold CSVLoader.load_frame.
  assert (R : match datetime_col with
              | Some c0 => Some c0
              | None => CSVLoader.detect_datetime_col df
              end = Some c).
  { destruct Hdc as [-> | [-> ->]]; reflexivity. }
  rewrite R, Hc. unfold getitem.
  destruct (col_in_get_col _ _ Hc) as [s Hsv].
  assert (Es : series_of df c = s) by (unfold series_of; now rewrite Hsv).
  rewrite Hsv. simpl. rewrite <- Es, Hp. simpl.
  eexists. split; [reflexivity |].
  set (P := map CSVLoader.cell_of_stamp parsed).
  set (df1 := update_col c (fun _ => P) df).
  assert (S1 : series_of df1 c = P) by (apply series_of_update_const; exact Hc).
  rewrite S1.
  assert (C2 : col_in c (take_rows (map notna P) df1) = true).
  { unfold col_in. rewrite columns_take_rows. unfold df1. rewrite columns_update_col.
    exact Hc. }
  rewrite series_of_take_rows, S1. unfold P. rewrite select_notna_stamps.
  fold P. rewrite stamps_map_CTime.
  set (ts := parsed_stamps parsed) in *. set (idx := CSVLoader.argsort ts) in *.
  unfold argsort_sorts in Hs. fold idx in Hs.
  apply andb_true_iff in Hs as [Hs Hnd]. apply andb_true_iff in Hs as [Hlen Hidx].
  apply Nat.eqb_eq in Hlen. rewrite forallb_forall in Hidx.
  assert (S3 : series_of (CSVLoader.reorder idx (take_rows (map notna P) df1)) c
               = map CTime (map (fun i => nth i ts 0) idx)).
  { rewrite (series_of_reorder _ _ _ C2), series_of_take_rows, S1.
    unfold P. rewrite select_notna_stamps. fold ts. rewrite map_map.
    apply map_ext_in. intros i Hi. apply Hidx in Hi. apply Nat.ltb_lt in Hi.
    now apply (nth_map_default CTime ts i 0 CMissing). }
  rewrite S3. split; [| split; [| split]].
  - rewrite columns_reorder, columns_take_rows. apply columns_update_col.
  - apply forallb_forall. intros x Hx. apply in_map_iff in Hx as (t & <- & _). reflexivity.
  - now rewrite stamps_map_CTime.
  - rewrite !length_map, Hlen. apply length_parsed_stamps.
Qed.

End Loading.

Lemma load_frame_normalises_witness :
  exists df',
    CSVLoader.load_frame (pd := Sample.pandas) (np := Sample.numpy)
      [("Date/Time", [CStr "2025-01-03"; CStr "bad"; CStr "2025-01-01"; CStr "2025-01-02"]);
       ("Rain", [CNum 1; CNum 2; CNum 3; CNum 4])]
      (Some "Date/Time") = Ok (df', Some "Date/Time")
    /\ forallb is_time (series_of df' "Date/Time") = true
    /\ nondecreasing (CSVLoader.stamps (series_of df' "Date/Time")) = true
    /\ List.length (series_of df' "Date/Time") = 3%nat.
Proof.
  destruct (load_frame_normalises (pd := Sample.pandas) (np := Sample.numpy)
              [("Date/Time", [CStr "2025-01-03"; CStr "bad"; CStr "2025-01-01";
                              CStr "2025-01-02"]);
               ("Rain", [CNum 1; CNum 2; CNum 3; CNum 4])]
              (Some "Date/Time") "Date/Time"
              [Some (Sample.day 2025 1 3); None; Some (Sample.day 2025 1 1);
               Some (Sample.day 2025 1 2)]
              (or_introl eq_refl) eq_refl eq_refl eq_refl)
    as (df' & E & _ & Ht & Hn & Hl).
  exists df'. repeat split; assumption.
Defined.

(** ** __main__.py: the processing steps *)

Section MainSteps.
Context {pd : Pandas}.

Lemma keep_where_columns op datetime_col bound df df' :
  DataProcessor.keep_where op datetime_col bound df = Ok df' -> columns df' = columns df.
Proof.
  unfold DataProcessor.keep_where. destruct (getitem datetime_col df); simpl; [| discriminate].
  destruct (mapM _ _); simpl; [| discriminate].
  intros [= <-]. apply columns_take_rows.
Qed.

Lemma bound_step_columns op datetime_col bound df df' :
  match bound with
  | Some s => if Text.truthy s
              then DataProcessor.keep_where op datetime_col s df else Ok df
  | None => Ok df
  end = Ok df' ->
  columns df' = columns df.
Proof.
  destruct bound as [s |]; [| now intros [= <-]].
  destruct (Text.truthy s); [apply keep_where_columns | now intros [= <-]].
Qed.

(** Whatever the dtype of the datetime column, a date filter that returns
    keeps the columns. *)
Lemma filter_date_range_columns df datetime_col start end_ df' :
  DataProcessor.filter_date_range df datetime_col start end_ = Ok df' ->
  columns df' = columns df.
Proof.
  unfold DataProcessor.filter_date_range.
  destruct (negb (col_in datetime_col df)); [now intros [= <-] |].
  destruct (match start with
            | Some s => if Text.truthy s
                        then DataProcessor.keep_where Z.geb datetime_col s df else Ok df
            | None => Ok df
            end) as [d1 |] eqn:E1; simpl; [| discriminate].
  intros E2. apply bound_step_columns in E1, E2. congruence.
Qed.

Lemma process_inv args df dtcol df' resampled :
  Main.process args df dtcol = Ok (df', resampled) ->
  columns df' = columns df
  /\ (resampled = None
      \/ exists r, resampled = Some r
                   /\ DataProcessor.resample df' dtcol (Main.resample args) (Main.agg args)
                        (Main.wanted_cols args) = Ok (Some r)).
Proof.
  unfold Main.process. cbv zeta.
  destruct (DataProcessor.filter_date_range _ dtcol _ _) as [d |] eqn:F; simpl;
    [| discriminate].
  apply filter_date_range_columns in F.
  assert (C : columns d = columns df).
  { rewrite F. destruct (Main.trace_as_zero args).
    - rewrite columns_handle_trace_values, to_numeric_on_columns. apply columns_on_columns'.
    - rewrite to_numeric_on_columns. apply columns_on_columns'. }
  destruct (truthy_opt (Main.resample args)).
  - destruct (DataProcessor.resample d dtcol _ _ _) as [[r |] |] eqn:R; simpl;
      try discriminate; intros [= <- <-]; (split; [exact C |]); [right | now left].
    exists r. split; [reflexivity | exact R].
  - simpl. intros [= <- <-]. split; [exact C | now left].
Qed.

(** X17. In [main], the time axis of the plot is always found: when the
    processing steps return, the column that step 8 plots against (the
    first column of the resampled frame, or the datetime column when there
    was no resampling) is the datetime column and is a column of the frame
    that is plotted, so that neither the indexing of the first column nor
    the lookup of the time axis fails; and after a resampling the frame
    that is plotted has the datetime column followed by the requested
    columns. *)
Theorem main_time_axis (args : Main.Args) (df : frame) (dtcol : string)
    (df' : frame) (resampled : option frame) :
  Main.process args df dtcol = Ok (df', resampled) ->
  col_in dtcol df = true ->
  Main.time_axis dtcol resampled = Some dtcol
  /\ (forall r, resampled = Some r -> columns r = dtcol :: Main.wanted_cols args)
  /\ col_in dtcol (Main.target df' resampled) = true.
Proof.
  intros H Hd. destruct (process_inv _ _ _ _ _ H) as [C [-> | (r & -> & R)]].
  - split; [reflexivity |]. split; [discriminate |].
    simpl. unfold col_in. now rewrite C.
  - assert (Cr : columns r = dtcol :: Main.wanted_cols args).
    { destruct (resample_Some_inv _ _ _ _ _ _ R)
        as (f & v & values & off & times & red & outs & _ & _ & Hvalues & _ & _ & _
            & Houts & ->).
      unfold columns. simpl. f_equal. apply map_fst_combine.
      rewrite length_map, (Forall2_length_eq _ _ _ Hvalues).
      apply (Forall2_length_eq _ _ _ Houts). }
    split; [simpl; now rewrite Cr |]. split; [now intros r' [= <-] |].
    simpl. unfold col_in. rewrite Cr. simpl. now rewrite String.eqb_refl.
Qed.

(** X18. In [main], the flag [--trace-as-zero] has no effect: the numeric
    coercion runs first on the same columns and turns the text "Trace"
    into NaN, so the trace handling finds nothing to replace, and the
    processing steps give the same result with and without the flag.
    (Column names are distinct and no number prints as "Trace".) *)
Theorem main_trace_flag_no_effect (vc nc : option (list string)) (s e : option string)
    (freq : option string) (a : string) (df : frame) (dtcol : string) :
  NoDup (columns df) ->
  (forall q, DataProcessor.trace_match "Trace" (CNum q) = false) ->
  Main.process {| Main.value_cols := vc; Main.numeric_cols := nc; Main.start := s;
                  Main.end_ := e; Main.trace_as_zero := true; Main.resample := freq;
                  Main.agg := a |} df dtcol
  = Main.process {| Main.value_cols := vc; Main.numeric_cols := nc; Main.start := s;
                    Main.end_ := e; Main.trace_as_zero := false; Main.resample := freq;
                    Main.agg := a |} df dtcol.
Proof.
  intros ND Law. unfold Main.process. cbv zeta. simpl Main.trace_as_zero.
  cbv iota. rewrite (trace_after_to_numeric df _ "Trace" 0 ND Law eq_refl).
  reflexivity.
Qed.

End MainSteps.

(** ** Instances on the sample tables *)

Lemma to_numeric_effect_witness :
  columns (DataProcessor.to_numeric (pd := Sample.pandas)
             [("Date/Time", [CTime (Sample.day 2025 1 1)]); ("Rain", [CStr "Trace"])]
             ["Rain"; "Wind"])
  = ["Date/Time"; "Rain"]
  /\ numeric_dtype
       (series_of (DataProcessor.to_numeric (pd := Sample.pandas)
                     [("Date/Time", [CTime (Sample.day 2025 1 1)]); ("Rain", [CStr "Trace"])]
                     ["Rain"; "Wind"]) "Rain") = true.
Proof.
  destruct (to_numeric_effect (pd := Sample.pandas)
              [("Date/Time", [CTime (Sample.day 2025 1 1)]); ("Rain", [CStr "Trace"])]
              ["Rain"; "Wind"]) as (Hc & Hn & _).
  split; [exact Hc |]. apply Hn. simpl; tauto.
Defined.

Lemma resample_columns_witness :
  exists out,
    DataProcessor.resample (pd := Sample.pandas) readings "Date/Time" (Some "D") "max"
      ["Snow"; "Rain"] = Ok (Some out)
    /\ columns out = ["Date/Time"; "Snow"; "Rain"].
Proof.
  eexists. split; [vm_compute; reflexivity |].
  match goal with
  | |- columns ?out = _ =>
      exact (proj1 (resample_columns (pd := Sample.pandas) readings "Date/Time" (Some "D")
                      "max" ["Snow"; "Rain"] out ltac:(vm_compute; reflexivity)))
  end.
Defined.

Lemma resample_sum_keeps_buckets_witness :
  exists out,
    DataProcessor.resample (pd := Sample.pandas) readings "Date/Time" (Some "D") "sum"
      ["Rain"] = Ok (Some out)
    /\ bucket_times out
       = [Sample.day 2025 1 1; Sample.day 2025 1 2; Sample.day 2025 1 3; Sample.day 2025 1 4].
Proof.
  eexists. split; [vm_compute; reflexivity |].
  match goal with
  | |- bucket_times ?out = _ =>
      rewrite (resample_sum_keeps_buckets (pd := Sample.pandas) readings "Date/Time" "D"
                 ["Rain"] out Sample.daily
                 [CTime (Sample.day 2025 1 1);
                  CTime (Sample.day 2025 1 1 + 3600000000000);
                  CTime (Sample.day 2025 1 2);
                  CTime (Sample.day 2025 1 4)]
                 [Sample.day 2025 1 1; Sample.day 2025 1 1 + 3600000000000;
                  Sample.day 2025 1 2; Sample.day 2025 1 4]
                 "Rain" ltac:(vm_compute; reflexivity) eq_refl eq_refl eq_refl
                 (or_introl eq_refl) eq_refl)
  end.
  vm_compute; reflexivity.
Defined.

Lemma resample_datetime_requested_witness :
  DataProcessor.resample (pd := Sample.pandas) readings "Date/Time" (Some "D") "mean"
    ["Rain"; "Date/Time"]
  = Raise (KeyError "Date/Time").
Proof.
  apply (resample_datetime_requested (pd := Sample.pandas) readings "Date/Time" "D" "mean"
           ["Rain"; "Date/Time"]).
  - discriminate.
  - intros c [<- | [<- | []]]; reflexivity.
  - simpl; tauto.
Defined.

Lemma resample_invalid_frequency_witness :
  to_offset (Pandas := Sample.pandas) "fortnight" = None
  /\ DataProcessor.resample (pd := Sample.pandas) readings "Date/Time" (Some "fortnight")
       "avg" ["Rain"]
     = Raise ValueError.
Proof.
  split; [reflexivity |].
  apply (resample_invalid_frequency (pd := Sample.pandas) readings "Date/Time" "fortnight"
           "avg" ["Rain"]).
  - discriminate.
  - reflexivity.
  - reflexivity.
  - intros c [<- | []]; reflexivity.
  - intros [H | []]; discriminate.
Defined.

Lemma resample_after_to_numeric_witness :
  exists out,
    DataProcessor.resample (pd := Sample.pandas)
      (DataProcessor.to_numeric (pd := Sample.pandas)
         [("Date/Time", [CTime (Sample.day 2025 1 1); CTime (Sample.day 2025 1 2)]);
          ("Rain", [CStr "Trace"; CStr "1.5"])] ["Rain"])
      "Date/Time" (Some "D") "median" ["Rain"]
    = Ok (Some out).
Proof.
  apply (resample_after_to_numeric (pd := Sample.pandas)
           [("Date/Time", [CTime (Sample.day 2025 1 1); CTime (Sample.day 2025 1 2)]);
            ("Rain", [CStr "Trace"; CStr "1.5"])]
           "Date/Time" "D" "median" ["Rain"] Sample.daily
           [CTime (Sample.day 2025 1 1); CTime (Sample.day 2025 1 2)]).
  - discriminate.
  - reflexivity.
  - reflexivity.
  - reflexivity.
  - intros c [<- | []]; reflexivity.
  - intros [H | []]; discriminate.
  - simpl; tauto.
Defined.

Lemma main_time_axis_witness :
  exists df' r,
    Main.process (pd := Sample.pandas)
      {| Main.value_cols := Some ["Rain"; "Snow"]; Main.numeric_cols := None;
         Main.start := Some "2025-01-01"; Main.end_ := None;
         Main.trace_as_zero := true; Main.resample := Some "D"; Main.agg := "mean" |}
      readings "Date/Time" = Ok (df', Some r)
    /\ Main.time_axis "Date/Time" (Some r) = Some "Date/Time"
    /\ columns r = ["Date/Time"; "Rain"; "Snow"].
Proof.
  eexists _, _. split; [vm_compute; reflexivity |].
  match goal with
  | |- Main.time_axis _ (Some ?r) = _ /\ _ =>
      destruct (main_time_axis (pd := Sample.pandas)
                  {| Main.value_cols := Some ["Rain"; "Snow"]; Main.numeric_cols := None;
                     Main.start := Some "2025-01-01"; Main.end_ := None;
                     Main.trace_as_zero := true; Main.resample := Some "D";
                     Main.agg := "mean" |}
                  readings "Date/Time" _ (Some r)
                  ltac:(vm_compute; reflexivity) eq_refl) as (Ha & Hc & _)
  end.
  split; [exact Ha | exact (Hc _ eq_refl)].
Defined.

Lemma main_trace_flag_no_effect_witness :
  NoDup (columns [("Date/Time", [CTime (Sample.day 2025 1 1); CTime (Sample.day 2025 1 2)]);
                  ("Rain", [CStr "Trace"; CStr "1.5"])])
  /\ Main.process (pd := Sample.pandas)
       {| Main.value_cols := Some ["Rain"]; Main.numeric_cols := None;
          Main.start := None; Main.end_ := None;
          Main.trace_as_zero := true; Main.resample := None; Main.agg := "mean" |}
       [("Date/Time", [CTime (Sample.day 2025 1 1); CTime (Sample.day 2025 1 2)]);
        ("Rain", [CStr "Trace"; CStr "1.5"])] "Date/Time"
     = Ok ([("Date/Time", [CTime (Sample.day 2025 1 1); CTime (Sample.day 2025 1 2)]);
            ("Rain", [CMissing; CNum (15 # 10)])], None).
Proof.
  assert (ND : NoDup (columns [("Date/Time", [CTime (Sample.day 2025 1 1);
                                              CTime (Sample.day 2025 1 2)]);
                               ("Rain", [CStr "Trace"; CStr "1.5"])])).
  { simpl. repeat constructor; simpl; intuition discriminate. }
  split; [exact ND |].
  rewrite (main_trace_flag_no_effect (pd := Sample.pandas) (Some ["Rain"]) None None None
             None "mean" _ "Date/Time" ND sample_numbers_not_trace).
  reflexivity.
Defined.

(** ** The outputs do not depend on an earlier coercion *)

Section CoercedOutputs.
Context {pd : Pandas}.

Lemma nums_coerced_twice v :
  nums (DataProcessor.pd_to_numeric (DataProcessor.pd_to_numeric v))
  = nums (DataProcessor.pd_to_numeric v).
Proof.
  unfold DataProcessor.pd_to_numeric. rewrite map_map. f_equal.
  apply map_ext. intros c. apply to_numeric_cell_idem.
Qed.

Lemma coerced_series df numeric c :
  col_in c (DataProcessor.to_numeric df numeric) = col_in c df
  /\ match get_col c (DataProcessor.to_numeric df numeric), get_col c df with
     | Some w, Some v =>
         nums (DataProcessor.pd_to_numeric w) = nums (DataProcessor.pd_to_numeric v)
     | None, None => True
     | _, _ => False
     end.
Proof.
  rewrite to_numeric_on_columns. split.
  - unfold col_in. now rewrite columns_on_columns'.
  - rewrite get_col_on_columns. destruct (get_col c df) as [v |]; [| exact I].
    destruct (listed numeric c); [apply nums_coerced_twice | reflexivity].
Qed.

(** X19. The summary and the histograms do not depend on an earlier numeric
    coercion: on the table that [to_numeric] returns, for any list of
    coerced columns, [Summarizer.table] gives the same rows and
    [histograms] the same paths and figures as on the table itself. *)
Theorem outputs_after_to_numeric (df : frame) (numeric cols : list string)
    (outdir : string) (bins : Z) (suffix : string) :
  Summarizer.table (DataProcessor.to_numeric df numeric) cols = Summarizer.table df cols
  /\ Visualizer.histograms (DataProcessor.to_numeric df numeric) cols outdir bins suffix
     = Visualizer.histograms df cols outdir bins suffix.
Proof.
  split.
  - unfold Summarizer.table. induction cols as [| c cols IH]; [reflexivity |].
    cbn [flat_map]. rewrite IH. f_equal.
    destruct (coerced_series df numeric c) as [-> Hs].
    destruct (col_in c df); [| reflexivity]. cbn [negb].
    destruct (get_col c (DataProcessor.to_numeric df numeric)) as [w |],
             (get_col c df) as [v |]; try contradiction; [| reflexivity].
    now rewrite Hs.
  - rewrite !histograms_figures.
    assert (E : forall c, hist_figure (DataProcessor.to_numeric df numeric) outdir bins suffix c
                          = hist_figure df outdir bins suffix c).
    { intros c. unfold hist_figure. destruct (coerced_series df numeric c) as [_ Hs].
      destruct (get_col c (DataProcessor.to_numeric df numeric)) as [w |],
               (get_col c df) as [v |]; try contradiction; [| reflexivity].
      now rewrite Hs. }
    now rewrite (flat_map_ext _ _ E).
Qed.

End CoercedOutputs.
